(** * dellemc_idrac_firmware_update: a shallow embedding and its properties

    The Ansible module [library/dellemc_idrac_firmware_update.py] validates
    its parameters, chooses between a URL repository and a network share,
    hands one request to the OpenManage SDK and turns the SDK's answer into
    an Ansible result.  The Python functions are embedded as functions of a
    small state-and-exception monad; the SDK, [urlparse] and the
    connection object are an explicit interface ([External]). *)

From Stdlib Require Import String Ascii List Bool ZArith Lia.
From stdpp Require Import base option gmap strings.
Import ListNotations.
Local Open Scope string_scope.

(** ** Python strings

    A [str] is modelled as a sequence of 8-bit characters (Python 2.7 [str],
    which the module's requirements name); [lower] folds [A]-[Z] only. *)

Module PyStr.

Definition lower_ascii (c : ascii) : ascii :=
  let n := nat_of_ascii c in
  if Nat.leb 65 n && Nat.leb n 90 then ascii_of_nat (n + 32) else c.

(** [s.lower()] *)
Fixpoint lower (s : string) : string :=
  match s with
  | EmptyString => EmptyString
  | String c t => String (lower_ascii c) (lower t)
  end.

(** [s.startswith(prefix)] *)
Fixpoint startswith (s prefix : string) {struct prefix} : bool :=
  match prefix, s with
  | EmptyString, _ => true
  | String _ _, EmptyString => false
  | String p prefix', String c s' => Ascii.eqb c p && startswith s' prefix'
  end.

(** [s.startswith((p1, p2, ...))] *)
Definition startswith_any (s : string) (prefixes : list string) : bool :=
  existsb (startswith s) prefixes.

(** [s.endswith(suffix)]: some tail of [s] is [suffix]. *)
Fixpoint endswith (s suffix : string) : bool :=
  String.eqb s suffix ||
  match s with
  | EmptyString => false
  | String _ t => endswith t suffix
  end.

(** [needle in hay] on two strings: substring search. *)
Fixpoint contains (needle hay : string) : bool :=
  startswith hay needle ||
  match hay with
  | EmptyString => false
  | String _ t => contains needle t
  end.

(** truth value of a string: non-empty *)
Definition truthy (s : string) : bool :=
  match s with EmptyString => false | _ => true end.

(** [x in l] for a list of strings *)
Definition in_list (x : string) (l : list string) : bool :=
  existsb (String.eqb x) l.

End PyStr.

(** ** The regular expressions of [re] that the module uses

    Only the constructs occurring in [ipv4_re]: literals, character ranges,
    concatenation, alternation, [?], bounded repetition, the look-ahead
    [(?=...)] and [$].  Capturing groups do not influence whether a match
    exists and are dropped. *)

Module Re.

Inductive regex : Type :=
| Chr (c : ascii)                         (* a literal character *)
| Range (lo hi : ascii)                   (* [lo-hi] *)
| Cat (r1 r2 : regex)                     (* r1 r2 *)
| Alt (r1 r2 : regex)                     (* r1|r2 *)
| Opt (r : regex)                         (* r? *)
| Times (n : nat) (r : regex)             (* r{n} *)
| Between (lo hi : nat) (r : regex)       (* r{lo,hi} *)
| LookAhead (r : regex)                   (* (?=r) *)
| Dollar.                                 (* $ *)

Definition in_range (lo hi c : ascii) : bool :=
  Nat.leb (nat_of_ascii lo) (nat_of_ascii c) &&
  Nat.leb (nat_of_ascii c) (nat_of_ascii hi).

(** [$] without MULTILINE: at the end, or just before a final newline. *)
Definition at_dollar (s : string) : bool :=
  match s with
  | EmptyString => true
  | String c EmptyString => Ascii.eqb c "010"%char
  | _ => false
  end.

(** Backtracking matcher in continuation-passing style: [matchk r s k]
    holds when [r] matches a prefix of [s] such that [k] accepts the
    rest. *)
Fixpoint matchk (r : regex) (s : string) (k : string -> bool) {struct r} : bool :=
  match r with
  | Chr c =>
      match s with
      | String d s' => Ascii.eqb d c && k s'
      | EmptyString => false
      end
  | Range lo hi =>
      match s with
      | String d s' => in_range lo hi d && k s'
      | EmptyString => false
      end
  | Cat r1 r2 => matchk r1 s (fun s' => matchk r2 s' k)
  | Alt r1 r2 => matchk r1 s k || matchk r2 s k
  | Opt r' => matchk r' s k || k s
  | Times n r' =>
      (fix exactly (n : nat) (s : string) : bool :=
         match n with
         | O => k s
         | S m => matchk r' s (exactly m)
         end) n s
  | Between lo hi r' =>
      (fix must (n : nat) (s : string) : bool :=
         match n with
         | O =>
             (fix may (m : nat) (s : string) : bool :=
                match m with
                | O => k s
                | S m' => matchk r' s (may m') || k s
                end) (hi - lo) s
         | S n' => matchk r' s (must n')
         end) lo s
  | LookAhead r' => matchk r' s (fun _ => true) && k s
  | Dollar => at_dollar s && k s
  end.

(** [re.match(r, s)] as a truth value: a match anchored at the start,
    not at the end. *)
Definition re_match (r : regex) (s : string) : bool :=
  matchk r s (fun _ => true).

Definition digit : regex := Range "0" "9".

End Re.

Import PyStr Re.

(** [(?:25[0-5]|2[0-4]\d|[0-1]?\d?\d)] *)
Definition octet_re : regex :=
  Alt (Cat (Chr "2") (Cat (Chr "5") (Range "0" "5")))
 (Alt (Cat (Chr "2") (Cat (Range "0" "4") digit))
      (Cat (Opt (Range "0" "1")) (Cat (Opt digit) digit))).

(** The pattern compiled at the head of [update_fw_from_url]:
    [octet(?:\.octet){3}(?=$|(?::(\d{2,5})))]. *)
Definition ipv4_re : regex :=
  Cat octet_re
 (Cat (Times 3 (Cat (Chr ".") octet_re))
      (LookAhead (Alt Dollar (Cat (Chr ":") (Between 2 5 digit))))).

(** URL scheme *)
Definition schemes : list string := ["ftp"; "http"; "https"].

(** ** Python values that reach [msg['msg']]

    The SDK answers with a job-status dictionary whose values are strings,
    booleans or numbers (see the module's RETURN block); a validation
    failure in [update_fw_from_url] puts a plain string there instead. *)

Inductive Atom : Type :=
| ANone
| ABool (b : bool)
| AInt (n : Z)
| AStr (s : string).

Inductive PyVal : Type :=
| VAtom (a : Atom)
| VDict (d : gmap string Atom).

Coercion VAtom : Atom >-> PyVal.

(** [type(v).__name__] *)
Definition type_name (a : Atom) : string :=
  match a with
  | ANone => "NoneType"
  | ABool _ => "bool"
  | AInt _ => "int"
  | AStr _ => "str"
  end.

(** [a == s] for a string literal [s] *)
Definition eq_str (a : Atom) (s : string) : bool :=
  match a with
  | AStr t => String.eqb t s
  | _ => false
  end.

(** [str(l)] for a list of strings without quotes in them *)
Definition repr_list (l : list string) : string :=
  "[" ++ String.concat ", " (map (fun s => "'" ++ s ++ "'") l) ++ "]".

(** ** Results, exceptions and exits *)

(** The dictionary [msg] that [update_fw_from_repo] builds and returns. *)
Record Outcome : Type := mkOutcome {
  changed : bool;
  failed : bool;
  msg : PyVal
}.

(** Keyword arguments handed to [fail_json] and [exit_json]: either a
    single [msg=...] string or the unpacked [**msg] dictionary. *)
Inductive Kwargs : Type :=
| KwMsg (text : string)
| KwResult (o : Outcome).

Inductive ModuleExit : Type :=
| fail_json (kw : Kwargs)
| exit_json (kw : Kwargs).

(** What a Python statement can raise.  [fail_json] and [exit_json] end in
    [sys.exit], whose [SystemExit] is not an [Exception]; everything else
    raised here is one, and carries its [str(e)]. *)
Inductive Raised : Type :=
| SystemExit (x : ModuleExit)
| Exception (text : string).

Inductive result (A : Type) : Type :=
| Ok (a : A)
| Raise (r : Raised).
Arguments Ok {A} a.
Arguments Raise {A} r.

(** ** Data handed in and out *)

(** [urlparse]'s named tuple, restricted to the fields the module reads.
    A named tuple with fields is never empty, hence always true. *)
Record ParseResult : Type := mkParseResult {
  scheme : string;
  netloc : string;
  path : string
}.

Definition ParseResult_truthy (p : ParseResult) : bool := true.

(** [module.params] after Ansible's argument_spec was applied: [str]
    options with [default=None] are optional, the others always present. *)
Record Params : Type := mkParams {
  share_name : string;
  share_user : option string;
  share_pwd : option string;
  share_mnt : option string;
  catalog_file_name : string;
  apply_update : bool;
  reboot : bool;
  job_wait : bool;
  ignore_cert_warning : bool
}.

(** The attributes of the connection object that the module touches. *)
Record iDRAC : Type := mkiDRAC {
  ServerGeneration : string;
  use_redfish : bool
}.

(** [UserCredentials(share_user, share_pwd)] *)
Record UserCredentials : Type := mkUserCredentials {
  username : option string;
  password : option string
}.

(** truth value of an optional string: [None] and [""] are false *)
Definition opt_truthy (o : option string) : bool :=
  match o with
  | None => false
  | Some s => PyStr.truthy s
  end.

Section Module.

(** omsdk's [FileOnShare] objects are opaque. *)
Context {FileShare : Type}.

(** The two calls on [idrac.update_mgr], with their keyword arguments. *)
Inductive Call : Type :=
| update_from_repo_url
    (ipaddress share_type share_name : string)
    (share_user share_pwd : option string)
    (catalog_file : string)
    (apply_update reboot_needed job_wait : bool)
| update_from_repo
    (catalog_path : FileShare)
    (apply_update reboot_needed job_wait : bool).

(** Everything outside the module: the standard library's [urlparse],
    omsdk's share objects and update manager, and the connection.  Each
    either returns or raises an [Exception] with the given text.  The
    update manager belongs to [idrac], so its answer may depend on the
    protocol flag at the time of the call. *)
Record External : Type := mkExternal {
  urlparse : string -> string + ParseResult;
  FileOnShare : string -> bool -> string + FileShare;
  addcreds : FileShare -> UserCredentials -> string + FileShare;
  new_file : FileShare -> string -> string + FileShare;
  update_mgr : bool -> Call -> string + PyVal;
  connect : Params -> result iDRAC;
  disconnect : string + unit
}.

(** What a stub standing in for [External] would record. *)
Inductive Event : Type :=
| ev_urlparse (url : string)
| ev_FileOnShare (remote : string) (isFolder : bool)
| ev_addcreds (share : FileShare) (creds : UserCredentials)
| ev_new_file (share : FileShare) (name : string)
| ev_update_mgr (redfish : bool) (c : Call).

(** the remote update calls in a trace *)
Definition is_update_call (ev : Event) : bool :=
  match ev with ev_update_mgr _ _ => true | _ => false end.

(** ** Machine state and the monad *)

Record St : Type := mkSt {
  idrac : iDRAC;                   (* the shared connection object *)
  out : Outcome;                   (* local [msg] *)
  err : bool;                      (* local [err] *)
  trace : list Event               (* external calls so far, oldest first *)
}.

Definition with_use_redfish (b : bool) (st : St) : St :=
  mkSt (mkiDRAC (ServerGeneration (idrac st)) b) (out st) (err st) (trace st).
Definition with_changed (b : bool) (st : St) : St :=
  mkSt (idrac st) (mkOutcome b (failed (out st)) (msg (out st)))
       (err st) (trace st).
Definition with_failed (b : bool) (st : St) : St :=
  mkSt (idrac st) (mkOutcome (changed (out st)) b (msg (out st)))
       (err st) (trace st).
Definition with_msg (v : PyVal) (st : St) : St :=
  mkSt (idrac st) (mkOutcome (changed (out st)) (failed (out st)) v)
       (err st) (trace st).
Definition with_err (b : bool) (st : St) : St :=
  mkSt (idrac st) (out st) b (trace st).
Definition log (ev : Event) (st : St) : St :=
  mkSt (idrac st) (out st) (err st) (trace st ++ [ev])%list.

Definition M (A : Type) : Type := St -> result A * St.

#[export] Instance M_ret : MRet M := fun A a st => (Ok a, st).

#[export] Instance M_bind : MBind M := fun A B f m st =>
  match m st with
  | (Ok a, st') => f a st'
  | (Raise r, st') => (Raise r, st')
  end.

Definition raise {A} (r : Raised) : M A := fun st => (Raise r, st).

(** [try: body  except Exception as e: handler(str(e))] *)
Definition try_except {A} (body : M A) (handler : string -> M A) : M A :=
  fun st =>
    match body st with
    | (Raise (Exception e), st') => handler e st'
    | other => other
    end.

Definition get {A} (f : St -> A) : M A := fun st => (Ok (f st), st).
Definition modify (f : St -> St) : M unit := fun st => (Ok tt, f st).

(** an external call: recorded, then it returns or raises *)
Definition external {A} (ev : Event) (x : string + A) : M A :=
  modify (log ev);;
  match x with
  | inl e => raise (Exception e)
  | inr a => mret a
  end.

Definition when (b : bool) (m : M unit) : M unit :=
  if b then m else mret tt.

(** [module.fail_json(...)] *)
Definition module_fail_json {A} (kw : Kwargs) : M A :=
  raise (SystemExit (fail_json kw)).

(** One call on [idrac.update_mgr], which sees the current flag. *)
Definition call_update_mgr (ext : External) (c : Call) : M PyVal :=
  flag ← get (fun st => use_redfish (idrac st));
  external (ev_update_mgr flag c) (update_mgr ext flag c).

(** ** Interpreter operations on [msg['msg']] *)

(** [key in v] *)
Definition py_in (key : string) (v : PyVal) : M bool :=
  match v with
  | VDict d => mret (bool_decide (is_Some (d !! key)))
  | VAtom (AStr s) => mret (contains key s)
  | VAtom a =>
      raise (Exception ("argument of type '" ++ type_name a
                        ++ "' is not iterable"))
  end.

(** [v[key]] for a string [key] *)
Definition py_getitem (v : PyVal) (key : string) : M Atom :=
  match v with
  | VDict d =>
      match d !! key with
      | Some a => mret a
      | None => raise (Exception ("'" ++ key ++ "'"))
      end
  | VAtom (AStr _) =>
      raise (Exception "string indices must be integers")
  | VAtom a =>
      raise (Exception ("'" ++ type_name a
                        ++ "' object is not subscriptable"))
  end.

(** ** The module's functions *)

Definition update_fw_from_url (ext : External)
    (share_name : string) (share_user share_pwd : option string)
    (catalog_file_name : string)
    (apply_update reboot job_wait ignore_cert_warning : bool) : M PyVal :=
  (* Validate URL *)
  p ← external (ev_urlparse share_name) (urlparse ext share_name);
  if negb (ParseResult_truthy p) then
    mret (VAtom (AStr ("Invalid url: " ++ share_name)))
  else
    let path0 := path p in
    if negb (in_list (scheme p) schemes) then
      let error_str := "URL scheme must be one of " ++ repr_list schemes in
      mret (VAtom (AStr ("Invalid url: " ++ share_name ++ ". " ++ error_str)))
    else if negb (PyStr.truthy (netloc p) && re_match ipv4_re (netloc p)) then
      let error_str := "URL netloc must be a valid IPv4 or IPv6 address." in
      mret (VAtom (AStr ("Invalid url: " ++ share_name ++ ". " ++ error_str)))
    else
      (* if path is empty then use "/" as path *)
      let path1 :=
        if negb (PyStr.truthy (path p)) then path0 ++ "/" else path0 in
      call_update_mgr ext
        (update_from_repo_url (netloc p) (scheme p) path1
           share_user share_pwd catalog_file_name
           apply_update reboot job_wait).

Definition update_fw_from_nw_share (ext : External)
    (share_name : string) (share_user share_pwd : option string)
    (catalog_file_name : string)
    (apply_update reboot job_wait : bool) : M PyVal :=
  nw_repo ← external (ev_FileOnShare share_name true)
                     (FileOnShare ext share_name true);
  let creds := mkUserCredentials share_user share_pwd in
  nw_repo ← external (ev_addcreds nw_repo creds)
                     (addcreds ext nw_repo creds);
  catalog_path ← external (ev_new_file nw_repo catalog_file_name)
                          (new_file ext nw_repo catalog_file_name);
  call_update_mgr ext
    (update_from_repo catalog_path apply_update reboot job_wait).

(** The body of the [try] in [update_fw_from_repo]. *)
Definition try_body (ext : External) (module : Params) : M unit :=
  let share_name := share_name module in
  let share_user := share_user module in
  let share_pwd := share_pwd module in
  let catalog_file_name := catalog_file_name module in
  let apply_update := apply_update module in
  let reboot := reboot module in
  let job_wait := job_wait module in
  let ignore_cert_warning := ignore_cert_warning module in
  (* check if valid catalog file *)
  when (negb (endswith (lower catalog_file_name) ".xml"))
    (module_fail_json
       (KwMsg ("Invalid catalog file: " ++ catalog_file_name
               ++ ". Must end with '.xml' or '.XML' extension")));;
  (* Temporary Fix for iDRAC firmware version < 2.50.50.50 *)
  generation ← get (fun st => ServerGeneration (idrac st));
  when (existsb (fun gen => contains gen generation) ["12"; "13"])
    (modify (with_use_redfish false));;
  (* check if HTTP/HTTPS share *)
  (if startswith_any (lower share_name) ["http://"; "https://"; "ftp://"]
   then
     (* Update from http/https/ftp repo is currently supported using
        only WS-Man *)
     modify (with_use_redfish false);;
     r ← update_fw_from_url ext share_name share_user share_pwd
           catalog_file_name apply_update reboot job_wait
           ignore_cert_warning;
     modify (with_msg r)
   else
     (* local mount point is required for SCP based firmware update
        using Redfish *)
     redfish ← get (fun st => use_redfish (idrac st));
     when (redfish && negb (opt_truthy (share_mnt module)))
       (module_fail_json
          (KwMsg "Error: 'share_mnt' is a mandatory argument for Redfish based firmware update using Server Configuration Profile (SCP)"));;
     r ← update_fw_from_nw_share ext share_name share_user share_pwd
           catalog_file_name apply_update reboot job_wait;
     modify (with_msg r));;
  m ← get (fun st => msg (out st));
  has_status ← py_in "Status" m;
  if (has_status : bool) then
    status ← py_getitem m "Status";
    if eq_str status "Success" then modify (with_changed true)
    else modify (with_failed true)
  else
    modify (with_failed true).

Definition update_fw_from_repo (ext : External) (module : Params)
  : M (Outcome * bool) :=
  modify (with_msg (VDict ∅));;
  modify (with_changed false);;
  modify (with_failed false);;
  modify (with_err false);;
  try_except (try_body ext module)
    (fun e =>
       modify (with_err true);;
       modify (with_msg (VAtom (AStr ("Error: " ++ e))));;
       modify (with_failed true));;
  st ← get (fun st => st);
  mret (out st, err st).

(** The state in which [main] enters [update_fw_from_repo]: nothing
    recorded yet; the locals are assigned by the function itself. *)
Definition enter (i : iDRAC) : St :=
  mkSt i (mkOutcome false false (VDict ∅)) false [].

(** [main], from the point where the parameters are parsed.  It always
    ends by leaving the process: through [exit_json], [fail_json] or an
    exception nobody catches.  The external calls made inside
    [update_fw_from_repo] are returned with it. *)
Definition main (ext : External) (HAS_OMSDK : bool) (module : Params)
  : Raised * list Event :=
  if negb HAS_OMSDK then
    (SystemExit (fail_json
       (KwMsg "Dell EMC OpenManage Python SDK required for this module")),
     [])
  else
    (* Connect to iDRAC *)
    match connect ext module with
    | Raise r => (r, [])
    | Ok i =>
        match update_fw_from_repo ext module (enter i) with
        | (Raise r, st) => (r, trace st)
        | (Ok (m, e), st) =>
            (* Disconnect from iDRAC *)
            match disconnect ext with
            | inl t => (Exception t, trace st)
            | inr _ =>
                if (e : bool)
                then (SystemExit (fail_json (KwResult m)), trace st)
                else (SystemExit (exit_json (KwResult m)), trace st)
            end
        end
    end.

End Module.

Arguments Call : clear implicits.
Arguments External : clear implicits.
Arguments Event : clear implicits.
Arguments St : clear implicits.
Arguments M : clear implicits.

(** ** Notions the properties are stated with *)

(** The ["Status"] field of a response, when the response is a dictionary
    that has one. *)
Definition status_field (r : PyVal) : option Atom :=
  match r with
  | VDict d => d !! "Status"
  | VAtom _ => None
  end.

(** A locator starts, in any mix of cases, with one of the URL prefixes. *)
Definition has_url_prefix (s : string) : Prop :=
  exists p rest, s = p ++ rest /\ In (lower p) ["http://"; "https://"; "ftp://"].

(** A name ends, in any mix of cases, with [suffix]. *)
Definition ends_with_ci (s suffix : string) : Prop :=
  exists base e, s = base ++ e /\ lower e = suffix.

(** The generation identifiers for which the module leaves Redfish. *)
Definition legacy_generation (generation : string) : Prop :=
  contains "12" generation = true \/ contains "13" generation = true.

Definition is_url_call {FileShare} (c : Call FileShare) : bool :=
  match c with
  | update_from_repo_url _ _ _ _ _ _ _ _ _ => true
  | update_from_repo _ _ _ _ => false
  end.

(** The events the URL branch can produce. *)
Definition url_event {FileShare} (ev : Event FileShare) : bool :=
  match ev with
  | ev_urlparse _ => true
  | ev_update_mgr _ c => is_url_call c
  | _ => false
  end.

(** The events the network-share branch can produce for [remote]. *)
Definition nw_share_event {FileShare} (remote : string)
    (ev : Event FileShare) : bool :=
  match ev with
  | ev_urlparse _ => false
  | ev_FileOnShare r folder => String.eqb r remote && folder
  | ev_addcreds _ _ => true
  | ev_new_file _ _ => true
  | ev_update_mgr _ c => negb (is_url_call c)
  end.

(** The two validation exits of [update_fw_from_repo]. *)
Definition catalog_name_error (catalog_file_name : string) : Raised :=
  SystemExit (fail_json (KwMsg
    ("Invalid catalog file: " ++ catalog_file_name
     ++ ". Must end with '.xml' or '.XML' extension"))).

Definition missing_mount_point_error : Raised :=
  SystemExit (fail_json (KwMsg
    "Error: 'share_mnt' is a mandatory argument for Redfish based firmware update using Server Configuration Profile (SCP)")).

(** The flag as the generation check leaves it. *)
Definition redfish_after_generation_check (i : iDRAC) : bool :=
  use_redfish i &&
  negb (contains "12" (ServerGeneration i) || contains "13" (ServerGeneration i)).

Definition with_ignore_cert_warning (b : bool) (m : Params) : Params :=
  mkParams (share_name m) (share_user m) (share_pwd m) (share_mnt m)
           (catalog_file_name m) (apply_update m) (reboot m) (job_wait m) b.

(** *** The address pattern as the comment in the source words it

    "IPv4 address with an optional port number": four decimal octets in
    0..255 separated by dots, then nothing, or a colon and a port made of
    digits only. *)

Module Strict.

Definition is_digit (c : ascii) : bool := in_range "0" "9" c.

Fixpoint all_digits (s : string) : bool :=
  match s with
  | EmptyString => true
  | String c t => is_digit c && all_digits t
  end.

Fixpoint value_from (acc : nat) (s : string) : nat :=
  match s with
  | EmptyString => acc
  | String c t => value_from (10 * acc + (nat_of_ascii c - 48)) t
  end.

(** [s.split(sep)] *)
Fixpoint split (sep : ascii) (s : string) : list string :=
  match s with
  | EmptyString => [EmptyString]
  | String c t =>
      if Ascii.eqb c sep then EmptyString :: split sep t
      else match split sep t with
           | piece :: rest => String c piece :: rest
           | [] => [String c EmptyString]
           end
  end.

Definition is_octet (s : string) : bool :=
  PyStr.truthy s && all_digits s && Nat.leb (String.length s) 3
  && Nat.leb (value_from 0 s) 255.

Definition is_port (s : string) : bool :=
  PyStr.truthy s && all_digits s.

Definition is_quad (host : string) : bool :=
  match split "." host with
  | [a; b; c; d] => is_octet a && is_octet b && is_octet c && is_octet d
  | _ => false
  end.

Definition ipv4_with_optional_port (netloc : string) : bool :=
  match split ":" netloc with
  | [host] => is_quad host
  | [host; port] => is_quad host && is_port port
  | _ => false
  end.

End Strict.

(** *** Three statements as the specification words them *)

(** The mount-point rule, reading "supplied" as "not [None]". *)
Definition mount_point_rule_as_stated {FileShare}
    (ext : External FileShare) (module : Params) (i : iDRAC) : Prop :=
  ends_with_ci (catalog_file_name module) ".xml" ->
  ~ has_url_prefix (share_name module) ->
  forall res st', update_fw_from_repo ext module (enter i) = (res, st') ->
  (redfish_after_generation_check i = true -> share_mnt module = None ->
     res = Raise missing_mount_point_error /\ trace st' = []) /\
  (share_mnt module <> None \/ redfish_after_generation_check i = false ->
     res <> Raise missing_mount_point_error /\
     hd_error (trace st') = Some (ev_FileOnShare (share_name module) true)).

(** The certificate flag is "part of the request handed to the remote
    service": it can be read back from the call that was made. *)
Definition flag_forwarded_as_stated {FileShare}
    (ext : External FileShare) (module : Params) (i : iDRAC) : Prop :=
  exists read : Call FileShare -> bool,
    forall b res st' redfish c,
      update_fw_from_repo ext (with_ignore_cert_warning b module) (enter i)
      = (res, st') ->
      In (ev_update_mgr redfish c) (trace st') ->
      read c = b.

(** The host rule: a URL whose scheme is not supported, or whose host is
    missing or is no IPv4 address with an optional port, never reaches
    the update manager. *)
Definition host_rule_as_stated {FileShare}
    (ext : External FileShare) (share_name : string) (st : St FileShare)
    : Prop :=
  forall p su sp cf au rb jw icw res st',
    urlparse ext share_name = inr p ->
    in_list (scheme p) schemes = false
    \/ netloc p = EmptyString
    \/ Strict.ipv4_with_optional_port (netloc p) = false ->
    update_fw_from_url ext share_name su sp cf au rb jw icw st = (res, st') ->
    List.filter is_update_call (trace st')
    = List.filter is_update_call (trace st).

(** ** A stub for the outside world

    Used to run the module on concrete inputs: share objects remember what
    they were built from, the update manager gives one fixed answer, and
    [parse] splits a URL of the shape [scheme://netloc/path] the way the
    standard library does (no parameters, brackets or control characters). *)

Module Stub.

Record Share : Type := mkShare {
  remote : string;
  folder : bool;
  credentials : option UserCredentials;
  file : option string
}.

(** the longest prefix without a stop character, and the rest *)
Fixpoint span (stop : ascii -> bool) (s : string) : string * string :=
  match s with
  | EmptyString => (EmptyString, EmptyString)
  | String c t =>
      if stop c then (EmptyString, s)
      else let (a, b) := span stop t in (String c a, b)
  end.

Definition is_alpha (c : ascii) : bool :=
  in_range "a" "z" c || in_range "A" "Z" c.

Definition is_scheme_char (c : ascii) : bool :=
  is_alpha c || in_range "0" "9" c
  || Ascii.eqb c "+" || Ascii.eqb c "-" || Ascii.eqb c ".".

Fixpoint all_chars (f : ascii -> bool) (s : string) : bool :=
  match s with
  | EmptyString => true
  | String c t => f c && all_chars f t
  end.

Definition one_of (stops : string) (c : ascii) : bool :=
  existsb (Ascii.eqb c) (list_ascii_of_string stops).

Definition parse (url : string) : string + ParseResult :=
  let (head, rest) := span (Ascii.eqb ":") url in
  let (scheme, url1) :=
    match head, rest with
    | String c _, String _ after =>
        if is_alpha c && all_chars is_scheme_char head
        then (lower head, after) else (EmptyString, url)
    | _, _ => (EmptyString, url)
    end in
  let (netloc, url2) :=
    match url1 with
    | String "/" (String "/" after) => span (one_of "/?#") after
    | _ => (EmptyString, url1)
    end in
  let (path, _) := span (one_of ";?#") url2 in
  inr (mkParseResult scheme netloc path).

Definition sdk (answer : string + PyVal) (i : iDRAC) : External Share :=
  {| urlparse := parse;
     FileOnShare := fun r f => inr (mkShare r f None None);
     addcreds := fun sh c =>
       inr (mkShare (remote sh) (folder sh) (Some c) (file sh));
     new_file := fun sh name =>
       inr (mkShare (remote sh) (folder sh) (credentials sh) (Some name));
     update_mgr := fun _ _ => answer;
     connect := fun _ => Ok i;
     disconnect := inr tt |}.

Definition job (status : string) : PyVal :=
  VDict (<["Status" := AStr status]>
         (<["JobStatus" := AStr "Completed"]>
          (<["retval" := ABool true]> ∅))).

Definition params (share catalog : string) (mnt : option string) : Params :=
  mkParams share (Some "user1") (Some "password") mnt catalog
           true false true true.

Definition g14 (redfish : bool) : iDRAC := mkiDRAC "14G Monolithic" redfish.
Definition g13 (redfish : bool) : iDRAC := mkiDRAC "13G Monolithic" redfish.

End Stub.

(** ** A weakest-precondition reading of the monad

    [wp m Q s]: running [m] from [s] ends in a result and a state that
    satisfy [Q]. *)
Definition wp {FileShare A} (m : M FileShare A)
    (Q : result A -> St FileShare -> Prop) (s : St FileShare) : Prop :=
  Q (m s).1 (m s).2.

(** ** Concrete runs *)

Module Scenario.

Import Stub.

(** update managers that report success, report a failed job, or raise *)
Definition success : iDRAC -> External Share := sdk (inr (job "Success")).
Definition rejected : iDRAC -> External Share := sdk (inr (job "Failed")).
Definition refused : iDRAC -> External Share := sdk (inl "Connection refused").

Definition url : Params := params "http://192.168.10.10" "Catalog.xml" None.
Definition mixed_case_url : Params :=
  params "HtTp://192.168.10.10/repo" "Catalog.XML" None.
Definition bad_catalog : Params :=
  params "http://192.168.10.10" "Catalog.txt" None.
Definition cifs (mnt : option string) : Params :=
  params "\\192.168.10.10\share" "Catalog.xml" mnt.

Definition url_request : Call Share :=
  update_from_repo_url "192.168.10.10" "http" "/"
    (Some "user1") (Some "password") "Catalog.xml" true false true.

Definition url_trace : list (Event Share) :=
  [ev_urlparse "http://192.168.10.10"; ev_update_mgr false url_request].

Definition mixed_case_trace : list (Event Share) :=
  [ev_urlparse "HtTp://192.168.10.10/repo";
   ev_update_mgr false
     (update_from_repo_url "192.168.10.10" "http" "/repo"
        (Some "user1") (Some "password") "Catalog.XML" true false true)].

Definition cifs_share : Share :=
  mkShare "\\192.168.10.10\share" true None None.
Definition cifs_share_creds : Share :=
  mkShare "\\192.168.10.10\share" true
    (Some (mkUserCredentials (Some "user1") (Some "password"))) None.
Definition cifs_catalog : Share :=
  mkShare "\\192.168.10.10\share" true
    (Some (mkUserCredentials (Some "user1") (Some "password")))
    (Some "Catalog.xml").
Definition cifs_request : Call Share :=
  update_from_repo cifs_catalog true false true.

Definition cifs_trace (redfish : bool) : list (Event Share) :=
  [ev_FileOnShare "\\192.168.10.10\share" true;
   ev_addcreds cifs_share (mkUserCredentials (Some "user1") (Some "password"));
   ev_new_file cifs_share_creds "Catalog.xml";
   ev_update_mgr redfish cifs_request].

Definition done (status : string) : Outcome :=
  mkOutcome (String.eqb status "Success")
            (negb (String.eqb status "Success")) (job status).

Definition final (redfish : bool) (generation : string) (o : Outcome)
    (e : bool) (t : list (Event Share)) : St Share :=
  mkSt (mkiDRAC generation redfish) o e t.

(** a host with text after its port *)
Definition port_with_text : string := "http://1.2.3.4:80abc/repo".
Definition port_with_text_request : Call Share :=
  update_from_repo_url "1.2.3.4:80abc" "http" "/repo"
    (Some "user1") (Some "password") "Catalog.xml" true false true.

End Scenario.

(** ** What a pattern consumes

    A declarative reading of the patterns, against which the matcher is
    checked and through which [ipv4_re] is characterised. *)

(** The text a pattern consumes: [den r p rest] says that [r] can consume
    exactly [p] when [rest] is what follows. *)
Fixpoint rep (D : string -> string -> Prop) (n : nat) (p rest : string) : Prop :=
  match n with
  | O => p = EmptyString
  | S m => exists p1 p2, p = p1 ++ p2 /\ D p1 (p2 ++ rest) /\ rep D m p2 rest
  end.

Fixpoint den (r : regex) (p rest : string) {struct r} : Prop :=
  match r with
  | Chr c => p = String c EmptyString
  | Range lo hi => exists d, p = String d EmptyString /\ in_range lo hi d = true
  | Cat r1 r2 =>
      exists p1 p2, p = p1 ++ p2 /\ den r1 p1 (p2 ++ rest) /\ den r2 p2 rest
  | Alt r1 r2 => den r1 p rest \/ den r2 p rest
  | Opt r' => den r' p rest \/ p = EmptyString
  | Times n r' => rep (den r') n p rest
  | Between lo hi r' =>
      exists n, lo <= n <= lo + (hi - lo) /\ rep (den r') n p rest
  | LookAhead r' =>
      p = EmptyString /\ exists q rest', rest = q ++ rest' /\ den r' q rest'
  | Dollar => p = EmptyString /\ at_dollar rest = true
  end.

(** *** The texts [ipv4_re] accepts *)

Definition newline : string := String "010" EmptyString.

(** What may follow the four octets: the end, a final newline, or a colon
    and at least two digits (and then anything). *)
Definition host_tail (rest : string) : Prop :=
  rest = EmptyString \/ rest = newline
  \/ exists d1 d2 more,
       rest = String ":" (String d1 (String d2 more))
       /\ Strict.is_digit d1 = true /\ Strict.is_digit d2 = true.

Definition accepted_host (netloc : string) : Prop :=
  exists a b c d rest,
    netloc = a ++ "." ++ b ++ "." ++ c ++ "." ++ d ++ rest
    /\ Strict.is_octet a = true /\ Strict.is_octet b = true
    /\ Strict.is_octet c = true /\ Strict.is_octet d = true
    /\ host_tail rest.

Definition digits_upto (hi : ascii) : list ascii :=
  List.filter (fun c => in_range "0" hi c)
    ["0"; "1"; "2"; "3"; "4"; "5"; "6"; "7"; "8"; "9"]%char.

(** The five shapes of an octet that [octet_re] spells out. *)
Definition octet_shape (o : string) : Prop :=
  (exists d, o = String "2" (String "5" (String d ""))
             /\ in_range "0" "5" d = true)
  \/ (exists d1 d2, o = String "2" (String d1 (String d2 ""))
                    /\ in_range "0" "4" d1 = true /\ in_range "0" "9" d2 = true)
  \/ (exists d0 d1 d2, o = String d0 (String d1 (String d2 ""))
                       /\ in_range "0" "1" d0 = true
                       /\ in_range "0" "9" d1 = true
                       /\ in_range "0" "9" d2 = true)
  \/ (exists d1 d2, o = String d1 (String d2 "")
                    /\ in_range "0" "9" d1 = true /\ in_range "0" "9" d2 = true)
  \/ (exists d, o = String d "" /\ in_range "0" "9" d = true).

(** the part of [ipv4_re] after the four octets *)
Definition tail_re : regex :=
  LookAhead (Alt Dollar (Cat (Chr ":") (Between 2 5 digit))).

Definition no_leading_digit (t : string) : Prop :=
  match t with
  | EmptyString => True
  | String c _ => Strict.is_digit c = false
  end.

(** [sep.join(l)] for a one-character separator *)
Fixpoint join (sep : ascii) (l : list string) : string :=
  match l with
  | [] => EmptyString
  | [x] => x
  | x :: l' => x ++ String sep (join sep l')
  end.

(** ** More concrete runs *)

Module Scenario2.

Import Stub Scenario.

Definition status_url : Params :=
  params "http://Status.example/repo" "Catalog.xml" None.

Definition error_outcome (text : string) : Outcome :=
  mkOutcome false true (VAtom (AStr ("Error: " ++ text))).

Definition port_with_text_parsed : ParseResult :=
  mkParseResult "http" "1.2.3.4:80abc" "/repo".

End Scenario2.

(** * Checks on concrete inputs *)

Example re1 : re_match ipv4_re "192.168.10.20:80" = true.
Proof. reflexivity. Qed.
Example re2 : re_match ipv4_re "256.1.1.1" = false.
Proof. reflexivity. Qed.
Example re3 : re_match ipv4_re "1.1.1.256" = false.
Proof. reflexivity. Qed.
Example re4 : re_match ipv4_re "1.2.3.4:8" = false.
Proof. reflexivity. Qed.
Example re5 : re_match ipv4_re "1.2.3.4:80abc" = true.
Proof. reflexivity. Qed.
Example re6 : re_match ipv4_re "my-hostname" = false.
Proof. reflexivity. Qed.
Example lo1 : lower "HTTP://Abc.XML" = "http://abc.xml".
Proof. reflexivity. Qed.
Example en1 : endswith (lower "Catalog.XmL") ".xml" = true.
Proof. reflexivity. Qed.
Example en2 : endswith (lower "Catalog.txt") ".xml" = false.
Proof. reflexivity. Qed.
Example co1 : contains "12" "PowerEdge 12G" = true.
Proof. reflexivity. Qed.

Example parse1 :
  Stub.parse "http://192.168.10.10" = inr (mkParseResult "http" "192.168.10.10" "").
Proof. reflexivity. Qed.
Example parse2 :
  Stub.parse "HTTPS://1.2.3.4:80abc/repo/x?y=1#z"
  = inr (mkParseResult "https" "1.2.3.4:80abc" "/repo/x").
Proof. reflexivity. Qed.
Example parse3 :
  Stub.parse "\\192.168.10.10\share" = inr (mkParseResult "" "" "\\192.168.10.10\share").
Proof. reflexivity. Qed.
Example strict1 : Strict.ipv4_with_optional_port "192.168.10.20:80" = true.
Proof. reflexivity. Qed.
Example strict2 : Strict.ipv4_with_optional_port "1.2.3.4:80abc" = false.
Proof. reflexivity. Qed.
Example strict3 : Strict.ipv4_with_optional_port "1.2.3.256" = false.
Proof. reflexivity. Qed.
Example strict4 : Strict.ipv4_with_optional_port "1.2.3.4" = true.
Proof. reflexivity. Qed.
Example run1 :
  (update_fw_from_repo (Stub.sdk (inr (Stub.job "Success")) (Stub.g14 true))
     (Stub.params "http://192.168.10.10" "Catalog.xml" None)
     (enter (Stub.g14 true))).1
  = Ok (mkOutcome true false (Stub.job "Success"), false).
Proof. vm_compute. reflexivity. Qed.

(** ** String facts *)

Section Strings.

Lemma lower_app a b : lower (a ++ b) = lower a ++ lower b.
Proof. induction a as [|c a IH]; simpl; [reflexivity | now rewrite IH]. Qed.

(** A split of [lower s] comes from a split of [s]. *)
Lemma lower_split s a b :
  lower s = a ++ b ->
  exists a' b', s = a' ++ b' /\ lower a' = a /\ lower b' = b.
Proof.
  revert s; induction a as [|c a IH]; intros s H.
  - exists EmptyString, s. auto.
  - destruct s as [|d s]; simpl in H; [discriminate|].
    injection H as Hc Hs.
    destruct (IH _ Hs) as (a' & b' & -> & <- & <-).
    exists (String d a'), b'. simpl. now rewrite Hc.
Qed.

Lemma startswith_spec s p :
  startswith s p = true <-> exists rest, s = p ++ rest.
Proof.
  revert s; induction p as [|c p IH]; intros s; simpl.
  - split; eauto.
  - destruct s as [|d s].
    + split; [discriminate | intros [? [=]]].
    + rewrite andb_true_iff, Ascii.eqb_eq, IH. split.
      * intros [-> [rest ->]]. eauto.
      * intros [rest [= -> ->]]. eauto.
Qed.

Lemma endswith_spec s suffix :
  endswith s suffix = true <-> exists base, s = base ++ suffix.
Proof.
  induction s as [|c s IH]; cbn [endswith].
  - rewrite orb_false_r, String.eqb_eq. split.
    + intros <-. now exists EmptyString.
    + intros [[|? ?] H]; simpl in H; [auto | discriminate].
  - rewrite orb_true_iff, String.eqb_eq, IH. split.
    + intros [<- | [base ->]]; [now exists EmptyString | now exists (String c base)].
    + intros [[|d base] H]; simpl in H; [auto|].
      injection H as -> ->. eauto.
Qed.

(** The catalog test of the source is the case-insensitive suffix test. *)
Lemma endswith_lower_spec s suffix :
  endswith (lower s) suffix = true <-> ends_with_ci s suffix.
Proof.
  rewrite endswith_spec. unfold ends_with_ci. split.
  - intros [base H].
    destruct (lower_split _ _ _ H) as (a & b & -> & _ & Hb). eauto.
  - intros (base & e & -> & <-). exists (lower base). apply lower_app.
Qed.

(** The share test of the source is the case-insensitive prefix test. *)
Lemma startswith_any_lower_spec s :
  startswith_any (lower s) ["http://"; "https://"; "ftp://"] = true
  <-> has_url_prefix s.
Proof.
  unfold startswith_any, has_url_prefix. rewrite existsb_exists. split.
  - intros (p & Hin & Hp). apply startswith_spec in Hp as [rest Hp].
    destruct (lower_split _ _ _ Hp) as (a & b & -> & <- & _). eauto.
  - intros (p & rest & -> & Hin). exists (lower p). split; [exact Hin|].
    apply startswith_spec. exists (lower rest). apply lower_app.
Qed.

Lemma eq_str_spec a s : eq_str a s = true <-> a = AStr s.
Proof.
  destruct a; simpl; try (split; [discriminate | intros [=]]).
  rewrite String.eqb_eq. split; [now intros -> | now intros [= ->]].
Qed.

Lemma truthy_spec s : PyStr.truthy s = true <-> s <> EmptyString.
Proof. destruct s; simpl; split; congruence. Qed.

End Strings.

(** ** Rules of the weakest-precondition reading *)

Section Logic.

Context {FileShare : Type}.
Implicit Types s : St FileShare.

Lemma wp_intro {A} (m : M FileShare A) Q s :
  wp m Q s -> forall r s', m s = (r, s') -> Q r s'.
Proof. unfold wp. intros H r s' E. now rewrite E in H. Qed.

Lemma wp_ret {A} (a : A) Q s : Q (Ok a) s -> wp (mret a) Q s.
Proof. auto. Qed.

Lemma wp_bind {A B} (m : M FileShare A) (f : A -> M FileShare B) Q s :
  wp m (fun r s' => match r with
                    | Ok a => wp (f a) Q s'
                    | Raise x => Q (Raise x) s'
                    end) s ->
  wp (m ≫= f) Q s.
Proof. unfold wp, mbind, M_bind. destruct (m s) as [[a|x] s']; auto. Qed.

Lemma wp_get {A} (f : St FileShare -> A) Q s :
  Q (Ok (f s)) s -> wp (get f) Q s.
Proof. auto. Qed.

Lemma wp_modify (f : St FileShare -> St FileShare) Q s :
  Q (Ok tt) (f s) -> wp (modify f) Q s.
Proof. auto. Qed.

Lemma wp_raise {A} x (Q : result A -> St FileShare -> Prop) s :
  Q (Raise x) s -> wp (raise x) Q s.
Proof. auto. Qed.

Lemma wp_external {A} ev (x : string + A) Q s :
  match x with
  | inl e => Q (Raise (Exception e)) (log ev s)
  | inr a => Q (Ok a) (log ev s)
  end ->
  wp (external ev x) Q s.
Proof. destruct x; auto. Qed.

Lemma wp_try_except {A} (body : M FileShare A) handler Q s :
  wp body (fun r s' => match r with
                       | Raise (Exception e) => wp (handler e) Q s'
                       | other => Q other s'
                       end) s ->
  wp (try_except body handler) Q s.
Proof.
  unfold wp, try_except. destruct (body s) as [[a|[x|e]] s']; auto.
Qed.

End Logic.

(** Symbolic execution: one statement at a time, one case per branch. *)

Ltac wp_simpl :=
  cbv beta iota zeta;
  cbn [negb andb orb fst snd app
       trace idrac out err msg changed failed use_redfish ServerGeneration
       with_use_redfish with_changed with_failed with_msg with_err log enter].

Ltac wp_step :=
  lazymatch goal with
  | |- wp (mbind _ _) _ _ => apply wp_bind
  | |- wp (mret _) _ _ => apply wp_ret
  | |- wp (get _) _ _ => apply wp_get
  | |- wp (modify _) _ _ => apply wp_modify
  | |- wp (raise _) _ _ => apply wp_raise
  | |- wp (module_fail_json _) _ _ => apply wp_raise
  | |- wp (external _ ?x) _ _ => apply wp_external; destruct x eqn:?
  | |- wp (try_except _ _) _ _ => apply wp_try_except
  | |- wp (call_update_mgr _ _) _ _ => unfold call_update_mgr
  | |- wp (when _ _) _ _ => unfold when at 1
  | |- wp (if ?b then _ else _) _ _ => destruct b eqn:?
  | |- wp (match ?x with _ => _ end) _ _ => destruct x eqn:?
  | |- wp (update_fw_from_url _ _ _ _ _ _ _ _ _) _ _ =>
      unfold update_fw_from_url, ParseResult_truthy
  | |- wp (update_fw_from_nw_share _ _ _ _ _ _ _ _) _ _ =>
      unfold update_fw_from_nw_share
  | |- wp (try_body _ _) _ _ => unfold try_body
  | |- wp (update_fw_from_repo _ _) _ _ => unfold update_fw_from_repo
  | |- wp (py_in _ _) _ _ => unfold py_in
  | |- wp (py_getitem _ _) _ _ => unfold py_getitem
  end; wp_simpl.

Ltac wp_run := repeat wp_step.

(** Start from an equation [m s = (r, s')] in the goal's premise. *)
Ltac by_wp := refine (wp_intro _ _ _ _); wp_run.

(** Membership in an explicit trace. *)
Ltac in_trace H :=
  repeat (destruct H as [H|H]; [try discriminate H; try (injection H as ? ?; subst)|]);
  try contradiction H.

(** Facts recorded by the case splits, in usable form. *)
Ltac facts :=
  repeat match goal with
  | H : eq_str _ _ = true |- _ => apply eq_str_spec in H
  | H : eq_str _ _ = false |- _ =>
      rewrite <- not_true_iff_false, eq_str_spec in H
  end.

(** Two records of one external call agree. *)
Ltac same_call :=
  repeat match goal with
  | H : ?x = inl _, H' : ?x = inr _ |- _ => rewrite H in H'; discriminate H'
  | H : ?x = inr _, H' : ?x = inr _ |- _ =>
      rewrite H in H'; injection H' as H'; subst
  end.

(** Rewrite the goal with what the case splits recorded. *)
Ltac use_cases :=
  repeat match goal with
  | H : bool_decide (is_Some _) = false |- _ =>
      apply bool_decide_eq_false, eq_None_not_Some in H
  | H : ?x = _ |- context [?x] => rewrite H
  end.

(** * Properties *)

Section Properties.

Context {FileShare : Type}.
Implicit Types (ext : External FileShare) (st : St FileShare).
Implicit Types (module : Params) (i : iDRAC).

(** *** How [update_fw_from_repo] wraps its [try] *)

Lemma update_fw_from_repo_catch ext module i :
  update_fw_from_repo ext module (enter i) =
  match try_body ext module (enter i) with
  | (Ok _, s) => (Ok (out s, err s), s)
  | (Raise (Exception text), s) =>
      (Ok (mkOutcome (changed (out s)) true (AStr ("Error: " ++ text)), true),
       with_failed true (with_msg (AStr ("Error: " ++ text)) (with_err true s)))
  | (Raise (SystemExit x), s) => (Raise (SystemExit x), s)
  end.
Proof.
  unfold update_fw_from_repo, try_except, mbind, M_bind, modify, get,
    mret, M_ret.
  change (with_err false (with_failed false (with_changed false
            (with_msg (VDict ∅) (enter i))))) with (@enter FileShare i).
  destruct (try_body ext module (enter i)) as [[[]|[x|text]] s]; reflexivity.
Qed.

(** The [try] body sets [changed] only as its very last step and never
    touches [err]. *)
Lemma try_body_locals ext module i :
  forall r s, try_body ext module (enter i) = (r, s) ->
  err s = false /\
  match r with
  | Ok _ => True
  | Raise _ => changed (out s) = false
  end.
Proof. by_wp; auto. Qed.

(** What a run that consulted the update manager returns. *)
Lemma run_status ext module i flag c r :
  forall res s', update_fw_from_repo ext module (enter i) = (res, s') ->
  forall o e, res = Ok (o, e) ->
  In (ev_update_mgr flag c) (trace s') ->
  update_mgr ext flag c = inr r ->
  match status_field r with
  | Some a =>
      e = false /\ msg o = r /\
      if eq_str a "Success"
      then changed o = true /\ failed o = false
      else changed o = false /\ failed o = true
  | None => changed o = false /\ failed o = true
  end.
Proof.
  by_wp.
  all: intros o e Hres Hin Hr; try discriminate Hres.
  all: injection Hres as <- <-; wp_simpl; in_trace Hin.
  all: same_call; cbn [status_field]; use_cases; auto.
Qed.

(** C1. Whatever the update manager answered decides the outcome: a
    ["Status"] of ["Success"] gives changed and not failed, any other
    ["Status"] gives failed and not changed, and an answer without a
    ["Status"] field gives failed and not changed; with a ["Status"]
    field exactly one of the two flags is set. *)
Theorem C1_status_decides_outcome ext module i o e st' flag c r :
  update_fw_from_repo ext module (enter i) = (Ok (o, e), st') ->
  In (ev_update_mgr flag c) (trace st') ->
  update_mgr ext flag c = inr r ->
  (status_field r = Some (AStr "Success") ->
     changed o = true /\ failed o = false) /\
  (forall a, status_field r = Some a -> a <> AStr "Success" ->
     changed o = false /\ failed o = true) /\
  (status_field r = None -> failed o = true /\ changed o = false) /\
  (is_Some (status_field r) -> xorb (changed o) (failed o) = true).
Proof.
  intros Hrun Hin Hr.
  pose proof (run_status _ _ _ _ _ _ _ _ Hrun _ _ eq_refl Hin Hr) as G.
  destruct (status_field r) as [a|] eqn:Hs.
  - destruct G as (_ & _ & G).
    destruct (eq_str a "Success") eqn:Ha; facts; destruct G as [-> ->];
      repeat split; intros; simplify_eq; done.
  - destruct G as [-> ->]. repeat split; intros; done.
Qed.

(** C2. An [Exception] raised anywhere in the [try] body is caught: the
    function returns failed, not changed, the message ["Error: "]
    followed by the exception's text, and [err] set; it never lets an
    [Exception] through to its caller. *)
Theorem C2_exceptions_are_caught ext module i :
  (forall text s,
     try_body ext module (enter i) = (Raise (Exception text), s) ->
     exists st',
       update_fw_from_repo ext module (enter i)
       = (Ok (mkOutcome false true (AStr ("Error: " ++ text)), true), st')
       /\ trace st' = trace s) /\
  (forall text st',
     update_fw_from_repo ext module (enter i) <> (Raise (Exception text), st')).
Proof.
  split.
  - intros text s H. rewrite update_fw_from_repo_catch, H.
    destruct (try_body_locals _ _ _ _ _ H) as [_ ->]. eauto.
  - intros text st'. rewrite update_fw_from_repo_catch.
    destruct (try_body ext module (enter i)) as [[[]|[x|t]] s]; discriminate.
Qed.

(** C3. A catalog name that does not end in [.xml], in any mix of cases,
    makes the function leave through [fail_json] with the catalog
    message before anything outside the module has been called; a name
    ending in [.xml] or [.XML] never leaves that way. *)
Theorem C3_catalog_name_checked_first ext module i :
  (~ ends_with_ci (catalog_file_name module) ".xml" ->
     update_fw_from_repo ext module (enter i)
     = (Raise (catalog_name_error (catalog_file_name module)), enter i)) /\
  ((exists base, catalog_file_name module = base ++ ".xml"
                 \/ catalog_file_name module = base ++ ".XML") ->
     forall st',
       update_fw_from_repo ext module (enter i)
       <> (Raise (catalog_name_error (catalog_file_name module)), st')).
Proof.
  split.
  - intros Hno. rewrite <- endswith_lower_spec in Hno.
    apply not_true_is_false in Hno.
    rewrite update_fw_from_repo_catch.
    unfold try_body, when, module_fail_json, raise, mbind, M_bind.
    rewrite Hno. reflexivity.
  - intros [base Hyes].
    assert (Hxml : endswith (lower (catalog_file_name module)) ".xml" = true).
    { apply endswith_lower_spec.
      destruct Hyes as [-> | ->]; eexists base, _; split; reflexivity. }
    enough (G : forall r s',
               update_fw_from_repo ext module (enter i) = (r, s') ->
               r <> Raise (catalog_name_error (catalog_file_name module))).
    { intros st' H. now apply G in H. }
    by_wp.
    all: try (rewrite Hxml in *; discriminate).
    all: discriminate.
Qed.

(** C5. The branch is chosen by the prefix alone.  With a URL prefix,
    in any mix of cases, the raw locator goes to [urlparse] first and
    nothing but the URL path's calls follow.  Without it the run either
    stops at the mount-point check with nothing called, or starts the
    network-share path by building a share from the raw locator, and
    only the network-share path's calls follow. *)
Theorem C5_share_classification ext module i res st' :
  update_fw_from_repo ext module (enter i) = (res, st') ->
  ends_with_ci (catalog_file_name module) ".xml" ->
  (has_url_prefix (share_name module) ->
     hd_error (trace st') = Some (ev_urlparse (share_name module)) /\
     forallb url_event (trace st') = true) /\
  (~ has_url_prefix (share_name module) ->
     (res = Raise missing_mount_point_error /\ trace st' = []
      \/ hd_error (trace st')
         = Some (ev_FileOnShare (share_name module) true)) /\
     forallb (nw_share_event (share_name module)) (trace st') = true).
Proof.
  intros Hrun Hxml. apply endswith_lower_spec in Hxml.
  rewrite <- startswith_any_lower_spec. revert res st' Hrun.
  by_wp.
  all: try (rewrite Hxml in *; discriminate).
  all: split; intros Hurl; try congruence.
  all: cbn [forallb url_event nw_share_event is_url_call negb andb hd_error];
    rewrite ?String.eqb_refl; auto.
Qed.

(** C6. Every call that reaches the update manager on a controller
    whose generation contains ["12"] or ["13"] sees the Redfish flag
    off, and so does every URL call, whatever the flag was on entry;
    the connection object keeps the flag off afterwards. *)
Theorem C6_legacy_protocol_forced ext module i res st' flag c :
  update_fw_from_repo ext module (enter i) = (res, st') ->
  In (ev_update_mgr flag c) (trace st') ->
  (legacy_generation (ServerGeneration i) ->
     flag = false /\ use_redfish (idrac st') = false) /\
  (is_url_call c = true ->
     flag = false /\ use_redfish (idrac st') = false).
Proof.
  unfold legacy_generation. revert res st'.
  by_wp.
  all: intros Hin; in_trace Hin.
  all: split; [intros Hgen | intros Hcall]; auto; try discriminate Hcall.
  all: exfalso; cbn [existsb] in *;
    destruct Hgen as [Hgen|Hgen]; rewrite Hgen in *;
    rewrite ?orb_true_r in *; discriminate.
Qed.

(** C7, amended.  On the network-share branch with the flag still on
    after the generation check, a [share_mnt] that is absent or empty
    makes the function leave through [fail_json] with the mount-point
    message before anything outside the module has been called; with a
    non-empty [share_mnt], or with the flag off, the network-share
    update is started on the raw locator. *)
Theorem C7_mount_point_required ext module i res st' :
  update_fw_from_repo ext module (enter i) = (res, st') ->
  ends_with_ci (catalog_file_name module) ".xml" ->
  ~ has_url_prefix (share_name module) ->
  (redfish_after_generation_check i = true ->
   opt_truthy (share_mnt module) = false ->
     res = Raise missing_mount_point_error /\ trace st' = []) /\
  (opt_truthy (share_mnt module) = true
   \/ redfish_after_generation_check i = false ->
     res <> Raise missing_mount_point_error /\
     hd_error (trace st') = Some (ev_FileOnShare (share_name module) true)).
Proof.
  intros Hrun Hxml Hnw. apply endswith_lower_spec in Hxml.
  rewrite <- startswith_any_lower_spec in Hnw.
  apply not_true_is_false in Hnw.
  unfold redfish_after_generation_check. revert res st' Hrun.
  by_wp.
  all: try (rewrite Hxml in *; discriminate).
  all: try (rewrite Hnw in *; discriminate).
  all: cbn [existsb] in *.
  all: destruct (use_redfish i), (opt_truthy (share_mnt module)),
         (contains "12" (ServerGeneration i)),
         (contains "13" (ServerGeneration i));
    cbn [negb andb orb hd_error] in *; try discriminate.
  all: split; [intros Ha Hb | intros [Ha|Ha]]; try discriminate; auto.
  all: split; [discriminate | reflexivity].
Qed.

(** *** The URL path on its own *)

(** A URL that fails the module's own checks is answered with the
    "Invalid url" text, and nothing but [urlparse] was called. *)
Lemma update_fw_from_url_rejects ext share_name su sp cf au rb jw icw st p :
  urlparse ext share_name = inr p ->
  in_list (scheme p) schemes = false
  \/ netloc p = EmptyString
  \/ re_match ipv4_re (netloc p) = false ->
  exists reason,
    update_fw_from_url ext share_name su sp cf au rb jw icw st
    = (Ok (VAtom (AStr ("Invalid url: " ++ share_name ++ ". " ++ reason))),
       log (ev_urlparse share_name) st).
Proof.
  intros Hp Hbad.
  unfold update_fw_from_url, external, modify, raise, mbind, M_bind,
    mret, M_ret, ParseResult_truthy.
  rewrite Hp. cbn [negb].
  destruct (in_list (scheme p) schemes) eqn:Hs; cbn [negb]; [|eauto].
  destruct (PyStr.truthy (netloc p) && re_match ipv4_re (netloc p)) eqn:Hn;
    cbn [negb]; [|eauto].
  apply andb_true_iff in Hn as [Hn1 Hn2]. apply truthy_spec in Hn1.
  destruct Hbad as [H|[H|H]]; congruence.
Qed.

Lemma not_digit_first c :
  Strict.is_digit c = false ->
  Ascii.eqb c "2" = false /\ in_range "0" "1" c = false
  /\ in_range "0" "9" c = false.
Proof.
  destruct c as [[] [] [] [] [] [] [] []]; vm_compute; intros H;
    repeat split; solve [reflexivity | discriminate H].
Qed.

(** A host that does not begin with a digit (a DNS name beginning with
    a letter, a bracketed IPv6 literal) fails the pattern. *)
Lemma host_without_leading_digit_rejected c rest :
  Strict.is_digit c = false ->
  re_match ipv4_re (String c rest) = false.
Proof.
  intros H. destruct (not_digit_first _ H) as (H2 & H01 & H09).
  unfold re_match, ipv4_re, octet_re, digit.
  cbn [matchk]. rewrite H2, H01, H09. cbn [andb orb].
  destruct rest as [|d rest]; [reflexivity|].
  destruct (Ascii.eqb d "2"), (in_range "0" "1" d), (in_range "0" "9" d);
    reflexivity.
Qed.

(** C8. For a URL that passes the module's checks the update manager is
    called with the parsed path as [share_name], and with ["/"] when
    the parsed path is empty; what it receives is never empty. *)
Theorem C8_empty_path_becomes_slash
    ext share_name su sp cf au rb jw icw st p :
  urlparse ext share_name = inr p ->
  in_list (scheme p) schemes = true ->
  netloc p <> EmptyString ->
  re_match ipv4_re (netloc p) = true ->
  exists sent,
    sent = match path p with EmptyString => "/" | _ => path p end
    /\ sent <> EmptyString
    /\ let request :=
         update_from_repo_url (netloc p) (scheme p) sent su sp cf au rb jw in
       let flag := use_redfish (idrac st) in
       update_fw_from_url ext share_name su sp cf au rb jw icw st
       = (match update_mgr ext flag request with
          | inl text => Raise (Exception text)
          | inr answer => Ok answer
          end,
          log (ev_update_mgr flag request) (log (ev_urlparse share_name) st)).
Proof.
  intros Hp Hs Hn Hre. apply truthy_spec in Hn.
  unfold update_fw_from_url, call_update_mgr, external, modify, get, raise,
    mbind, M_bind, mret, M_ret, ParseResult_truthy.
  rewrite Hp, Hs, Hn, Hre. wp_simpl.
  destruct (path p) as [|a t] eqn:Hpath; cbn [PyStr.truthy negb].
  - exists "/". repeat split; [discriminate|].
    cbn [String.append].
    destruct (update_mgr ext _ _); reflexivity.
  - exists (String a t). repeat split; [discriminate|].
    destruct (update_mgr ext _ _); reflexivity.
Qed.

(** C9.  The option [ignore_cert_warning] reaches [update_fw_from_url]
    and stops there: a run with the flag set either way is the same run,
    request included. *)
Theorem C9_certificate_flag_dropped ext module i b :
  update_fw_from_repo ext (with_ignore_cert_warning b module) (enter i)
  = update_fw_from_repo ext module (enter i).
Proof. reflexivity. Qed.

(** C10. [err] comes back set exactly when the [try] body raised an
    [Exception]; so an answer whose ["Status"] is not ["Success"] comes
    back failed with [err] clear, and [main] leaves through [exit_json]
    with that result. *)
Theorem C10_err_only_on_exception ext module i o e st' :
  update_fw_from_repo ext module (enter i) = (Ok (o, e), st') ->
  (e = true <->
   exists text s,
     try_body ext module (enter i) = (Raise (Exception text), s)) /\
  (forall flag c r a,
     In (ev_update_mgr flag c) (trace st') ->
     update_mgr ext flag c = inr r ->
     status_field r = Some a -> a <> AStr "Success" ->
     failed o = true /\ e = false /\
     (connect ext module = Ok i -> disconnect ext = inr tt ->
      main ext true module
      = (SystemExit (exit_json (KwResult o)), trace st'))).
Proof.
  intros Hrun. split.
  - rewrite update_fw_from_repo_catch in Hrun.
    destruct (try_body ext module (enter i)) as [[[]|[x|text]] s] eqn:Hbody.
    + injection Hrun as <- <- <-.
      destruct (try_body_locals _ _ _ _ _ Hbody) as [-> _].
      split; [discriminate | intros (? & ? & [=])].
    + discriminate Hrun.
    + injection Hrun as <- <- <-. split; eauto.
  - intros flag c r a Hin Hr Hs Ha.
    pose proof (run_status _ _ _ _ _ _ _ _ Hrun _ _ eq_refl Hin Hr) as G.
    rewrite Hs in G. destruct G as (-> & _ & G).
    destruct (eq_str a "Success") eqn:Heq; facts; [contradiction|].
    destruct G as [_ G]. repeat split; [exact G|].
    intros Hconn Hdisc. unfold main. cbn [negb].
    now rewrite Hconn, Hrun, Hdisc.
Qed.

End Properties.

(** * The properties on concrete runs *)

Section Runs.

Import Stub Scenario.

(** Two facts about the sample inputs. *)
Lemma catalog_xml_ok : ends_with_ci "Catalog.xml" ".xml".
Proof. exists "Catalog", ".xml". split; reflexivity. Defined.

Lemma cifs_is_no_url : ~ has_url_prefix "\\192.168.10.10\share".
Proof.
  rewrite <- startswith_any_lower_spec. vm_compute. discriminate.
Defined.

(** C1 on a run: a URL update answered with ["Status": "Success"]. *)
Lemma C1_witness :
  update_fw_from_repo (success (g14 true)) url (enter (g14 true))
  = (Ok (done "Success", false),
     final false "14G Monolithic" (done "Success") false url_trace)
  /\ In (ev_update_mgr false url_request) url_trace
  /\ update_mgr (success (g14 true)) false url_request = inr (job "Success")
  /\ changed (done "Success") = true /\ failed (done "Success") = false.
Proof.
  assert (H1 : update_fw_from_repo (success (g14 true)) url (enter (g14 true))
               = (Ok (done "Success", false),
                  final false "14G Monolithic" (done "Success") false url_trace))
    by (vm_compute; reflexivity).
  assert (H2 : In (ev_update_mgr false url_request)
                 (trace (final false "14G Monolithic" (done "Success")
                           false url_trace)))
    by (right; left; reflexivity).
  assert (H3 : update_mgr (success (g14 true)) false url_request
               = inr (job "Success")) by reflexivity.
  split; [exact H1|]. split; [exact H2|]. split; [exact H3|].
  exact (proj1 (C1_status_decides_outcome _ _ _ _ _ _ _ _ _ H1 H2 H3) eq_refl).
Defined.

(** C2 on a run: the update manager raises. *)
Lemma C2_witness :
  try_body (refused (g14 true)) url (enter (g14 true))
  = (Raise (Exception "Connection refused"),
     final false "14G Monolithic" (mkOutcome false false (VDict ∅))
       false url_trace)
  /\ exists st',
       update_fw_from_repo (refused (g14 true)) url (enter (g14 true))
       = (Ok (mkOutcome false true (AStr "Error: Connection refused"), true),
          st')
       /\ trace st' = url_trace.
Proof.
  assert (H1 : try_body (refused (g14 true)) url (enter (g14 true))
               = (Raise (Exception "Connection refused"),
                  final false "14G Monolithic"
                    (mkOutcome false false (VDict ∅)) false url_trace))
    by (vm_compute; reflexivity).
  split; [exact H1|].
  exact (proj1 (C2_exceptions_are_caught _ _ _) _ _ H1).
Defined.

(** C3 on two runs: [Catalog.txt] is refused before any call,
    [Catalog.XML] is not. *)
Lemma C3_witness :
  ~ ends_with_ci "Catalog.txt" ".xml"
  /\ update_fw_from_repo (success (g14 true)) bad_catalog (enter (g14 true))
     = (Raise (catalog_name_error "Catalog.txt"), enter (g14 true))
  /\ forall st',
       update_fw_from_repo (success (g14 true)) mixed_case_url
         (enter (g14 true))
       <> (Raise (catalog_name_error "Catalog.XML"), st').
Proof.
  assert (H1 : ~ ends_with_ci "Catalog.txt" ".xml").
  { rewrite <- endswith_lower_spec. vm_compute. discriminate. }
  split; [exact H1|]. split.
  - exact (proj1 (C3_catalog_name_checked_first
                    (success (g14 true)) bad_catalog (g14 true)) H1).
  - apply (proj2 (C3_catalog_name_checked_first
                    (success (g14 true)) mixed_case_url (g14 true))).
    exists "Catalog". right. reflexivity.
Defined.

(** C5 on a run: a prefix in mixed case takes the URL branch. *)
Lemma C5_witness :
  update_fw_from_repo (success (g14 true)) mixed_case_url (enter (g14 true))
  = (Ok (done "Success", false),
     final false "14G Monolithic" (done "Success") false mixed_case_trace)
  /\ ends_with_ci "Catalog.XML" ".xml"
  /\ has_url_prefix "HtTp://192.168.10.10/repo"
  /\ hd_error mixed_case_trace = Some (ev_urlparse "HtTp://192.168.10.10/repo")
  /\ forallb url_event mixed_case_trace = true.
Proof.
  assert (H1 : update_fw_from_repo (success (g14 true)) mixed_case_url
                 (enter (g14 true))
               = (Ok (done "Success", false),
                  final false "14G Monolithic" (done "Success") false
                    mixed_case_trace))
    by (vm_compute; reflexivity).
  assert (H2 : ends_with_ci (catalog_file_name mixed_case_url) ".xml").
  { exists "Catalog", ".XML". split; reflexivity. }
  assert (H3 : has_url_prefix (share_name mixed_case_url)).
  { exists "HtTp://", "192.168.10.10/repo". split; [reflexivity|].
    left. reflexivity. }
  split; [exact H1|]. split; [exact H2|]. split; [exact H3|].
  exact (proj1 (C5_share_classification _ _ _ _ _ H1 H2) H3).
Defined.

(** C6 on a run: a 13G controller entered with Redfish on. *)
Lemma C6_witness :
  update_fw_from_repo (success (g13 true)) (cifs None) (enter (g13 true))
  = (Ok (done "Success", false),
     final false "13G Monolithic" (done "Success") false (cifs_trace false))
  /\ In (ev_update_mgr false cifs_request) (cifs_trace false)
  /\ legacy_generation "13G Monolithic"
  /\ false = false
  /\ use_redfish (idrac (final false "13G Monolithic" (done "Success")
                           false (cifs_trace false))) = false.
Proof.
  assert (H1 : update_fw_from_repo (success (g13 true)) (cifs None)
                 (enter (g13 true))
               = (Ok (done "Success", false),
                  final false "13G Monolithic" (done "Success") false
                    (cifs_trace false)))
    by (vm_compute; reflexivity).
  assert (H2 : In (ev_update_mgr false cifs_request)
                 (trace (final false "13G Monolithic" (done "Success")
                           false (cifs_trace false))))
    by (do 3 right; left; reflexivity).
  assert (H3 : legacy_generation (ServerGeneration (g13 true)))
    by (right; reflexivity).
  split; [exact H1|]. split; [exact H2|]. split; [exact H3|].
  exact (proj1 (C6_legacy_protocol_forced _ _ _ _ _ _ _ H1 H2) H3).
Defined.

(** C7 as the specification words it fails: an empty [share_mnt] is
    supplied, yet the run stops at the mount-point check. *)
Lemma C7_counterexample :
  ~ mount_point_rule_as_stated
      (success (g14 true)) (cifs (Some "")) (g14 true).
Proof.
  intros H.
  assert (H1 : update_fw_from_repo (success (g14 true)) (cifs (Some ""))
                 (enter (g14 true))
               = (Raise missing_mount_point_error, enter (g14 true)))
    by (vm_compute; reflexivity).
  destruct (H catalog_xml_ok cifs_is_no_url _ _ H1) as [_ H2].
  destruct H2 as [H2 _]; [left; discriminate|].
  now apply H2.
Qed.

(** C7 on a run: Redfish on, a CIFS share and no mount point. *)
Lemma C7_witness :
  update_fw_from_repo (success (g14 true)) (cifs None) (enter (g14 true))
  = (Raise missing_mount_point_error, enter (g14 true))
  /\ (Raise missing_mount_point_error : result (Outcome * bool))
     = Raise missing_mount_point_error
  /\ trace (enter (g14 true) : St Share) = [].
Proof.
  assert (H1 : update_fw_from_repo (success (g14 true)) (cifs None)
                 (enter (g14 true))
               = (Raise missing_mount_point_error, enter (g14 true)))
    by (vm_compute; reflexivity).
  split; [exact H1|].
  exact (proj1 (C7_mount_point_required _ _ _ _ _ H1
                  catalog_xml_ok cifs_is_no_url) eq_refl eq_refl).
Defined.

(** C8 on a run: [http://192.168.10.10] has an empty path. *)
Lemma C8_witness :
  exists sent,
    sent = "/" /\ sent <> EmptyString
    /\ update_fw_from_url (success (g14 false)) "http://192.168.10.10"
         (Some "user1") (Some "password") "Catalog.xml" true false true true
         (enter (g14 false))
       = (Ok (job "Success"),
          log (ev_update_mgr false
                 (update_from_repo_url "192.168.10.10" "http" sent
                    (Some "user1") (Some "password") "Catalog.xml"
                    true false true))
            (log (ev_urlparse "http://192.168.10.10") (enter (g14 false)))).
Proof.
  apply (C8_empty_path_becomes_slash (success (g14 false))
           "http://192.168.10.10" (Some "user1") (Some "password")
           "Catalog.xml" true false true true (enter (g14 false))
           (mkParseResult "http" "192.168.10.10" "")).
  - reflexivity.
  - reflexivity.
  - discriminate.
  - reflexivity.
Defined.

(** C9 on a concrete run: no function of the request gives the flag
    back, because the two runs make the very same request. *)
Lemma C9_flag_not_in_request :
  ~ flag_forwarded_as_stated (success (g14 true)) url (g14 true).
Proof.
  intros [read H].
  assert (Hrun : forall b,
             update_fw_from_repo (success (g14 true))
               (with_ignore_cert_warning b url) (enter (g14 true))
             = (Ok (done "Success", false),
                final false "14G Monolithic" (done "Success") false url_trace))
    by (intros []; vm_compute; reflexivity).
  assert (Hin : In (ev_update_mgr false url_request)
                  (trace (final false "14G Monolithic" (done "Success")
                            false url_trace)))
    by (right; left; reflexivity).
  pose proof (H true _ _ _ _ (Hrun true) Hin) as Ht.
  pose proof (H false _ _ _ _ (Hrun false) Hin) as Hf.
  congruence.
Qed.

(** C10 on a run: a job reported as failed leaves through [exit_json]. *)
Lemma C10_witness :
  update_fw_from_repo (rejected (g14 true)) url (enter (g14 true))
  = (Ok (done "Failed", false),
     final false "14G Monolithic" (done "Failed") false url_trace)
  /\ failed (done "Failed") = true
  /\ main (rejected (g14 true)) true url
     = (SystemExit (exit_json (KwResult (done "Failed"))), url_trace).
Proof.
  assert (H1 : update_fw_from_repo (rejected (g14 true)) url (enter (g14 true))
               = (Ok (done "Failed", false),
                  final false "14G Monolithic" (done "Failed") false url_trace))
    by (vm_compute; reflexivity).
  assert (H2 : In (ev_update_mgr false url_request)
                 (trace (final false "14G Monolithic" (done "Failed")
                           false url_trace)))
    by (right; left; reflexivity).
  assert (H3 : update_mgr (rejected (g14 true)) false url_request
               = inr (job "Failed")) by reflexivity.
  assert (H4 : status_field (job "Failed") = Some (AStr "Failed"))
    by (vm_compute; reflexivity).
  assert (H5 : AStr "Failed" <> AStr "Success") by discriminate.
  split; [exact H1|].
  destruct (proj2 (C10_err_only_on_exception _ _ _ _ _ _ H1)
              _ _ _ _ H2 H3 H4 H5) as (Hf & _ & Hmain).
  split; [exact Hf|]. exact (Hmain eq_refl eq_refl).
Defined.

(** C4 on a concrete URL: the host [1.2.3.4:80abc] is no IPv4 address
    with an optional port, the pattern of the module lets it through,
    and the update manager is called with it. *)
Theorem C4_text_after_port_accepted :
  Strict.ipv4_with_optional_port "1.2.3.4:80abc" = false
  /\ re_match ipv4_re "1.2.3.4:80abc" = true
  /\ update_fw_from_url (success (g14 false)) port_with_text
       (Some "user1") (Some "password") "Catalog.xml" true false true true
       (enter (g14 false))
     = (Ok (job "Success"),
        final false "14G Monolithic" (mkOutcome false false (VDict ∅)) false
          [ev_urlparse port_with_text;
           ev_update_mgr false port_with_text_request])
  /\ ~ host_rule_as_stated (success (g14 false)) port_with_text
         (enter (g14 false)).
Proof.
  assert (H3 : update_fw_from_url (success (g14 false)) port_with_text
       (Some "user1") (Some "password") "Catalog.xml" true false true true
       (enter (g14 false))
     = (Ok (job "Success"),
        final false "14G Monolithic" (mkOutcome false false (VDict ∅)) false
          [ev_urlparse port_with_text;
           ev_update_mgr false port_with_text_request]))
    by (vm_compute; reflexivity).
  split; [reflexivity|]. split; [reflexivity|]. split; [exact H3|].
  intros H.
  specialize (H (mkParseResult "http" "1.2.3.4:80abc" "/repo")
                _ _ _ _ _ _ _ _ _ eq_refl
                (or_intror (or_intror eq_refl)) H3).
  discriminate H.
Qed.

(** A URL that fails validation and has the text [Status] in it: the
    test ["Status" in msg['msg']] is then a substring test on the
    "Invalid url" text, the subscript raises, and the text is replaced by
    the exception's. *)
Example invalid_url_text_lost :
  update_fw_from_repo (success (g14 true))
    (params "http://Status.example/repo" "Catalog.xml" None) (enter (g14 true))
  = (Ok (mkOutcome false true
           (AStr "Error: string indices must be integers"), true),
     final false "14G Monolithic"
       (mkOutcome false true (AStr "Error: string indices must be integers"))
       true [ev_urlparse "http://Status.example/repo"]).
Proof. vm_compute. reflexivity. Qed.

(** The same URL without that text keeps its "Invalid url" message. *)
Example invalid_url_text_kept :
  (update_fw_from_repo (success (g14 true))
     (params "http://my-hostname/share" "Catalog.xml" None)
     (enter (g14 true))).1
  = Ok (mkOutcome false true
          (AStr "Invalid url: http://my-hostname/share. URL netloc must be a valid IPv4 or IPv6 address."),
        false).
Proof. vm_compute. reflexivity. Qed.

Example unsupported_scheme :
  (update_fw_from_url (success (g14 true)) "gopher://192.168.1.1/x"
     None None "Catalog.xml" true false true true (enter (g14 true))).1
  = Ok (VAtom (AStr "Invalid url: gopher://192.168.1.1/x. URL scheme must be one of ['ftp', 'http', 'https']")).
Proof. vm_compute. reflexivity. Qed.

End Runs.

(** * The host pattern *)

(** ** The matcher against the declarative reading *)

Lemma append_cons c (a b : string) : String c a ++ b = String c (a ++ b).
Proof. reflexivity. Qed.

Lemma append_nil_l (a : string) : "" ++ a = a.
Proof. reflexivity. Qed.

Lemma append_assoc (a b c : string) : (a ++ b) ++ c = a ++ (b ++ c).
Proof.
  induction a as [|x a IH]; [reflexivity|].
  now rewrite !append_cons, IH.
Qed.

Lemma append_nil_r (a : string) : a ++ "" = a.
Proof.
  induction a as [|x a IH]; [reflexivity|]. now rewrite append_cons, IH.
Qed.

Section Matcher.

Variable r' : regex.
Variable k : string -> bool.
Hypothesis IH : forall s k, matchk r' s k = true <->
  exists p rest, s = p ++ rest /\ den r' p rest /\ k rest = true.

Lemma exactly_den n : forall s,
  (fix exactly (n : nat) (s : string) : bool :=
     match n with
     | O => k s
     | S m => matchk r' s (exactly m)
     end) n s = true <->
  exists p rest, s = p ++ rest /\ rep (den r') n p rest /\ k rest = true.
Proof.
  induction n as [|n IHn]; intros s.
  - split.
    + intros H. exists "", s. repeat split; exact H.
    + intros (p & rest & -> & -> & H). exact H.
  - rewrite IH. split.
    + intros (p1 & rest1 & -> & H1 & H2). apply IHn in H2.
      destruct H2 as (p2 & rest & -> & H2 & H3).
      exists (p1 ++ p2), rest. rewrite append_assoc. split; [reflexivity|].
      split; [|exact H3]. exists p1, p2. auto.
    + intros (p & rest & -> & (p1 & p2 & -> & H1 & H2) & H3).
      exists p1, (p2 ++ rest). rewrite append_assoc. split; [reflexivity|].
      split; [exact H1|]. apply IHn. eauto.
Qed.

Lemma may_den m : forall s,
  (fix may (m : nat) (s : string) : bool :=
     match m with
     | O => k s
     | S m' => matchk r' s (may m') || k s
     end) m s = true <->
  exists n p rest,
    n <= m /\ s = p ++ rest /\ rep (den r') n p rest /\ k rest = true.
Proof.
  induction m as [|m IHm]; intros s.
  - split.
    + intros H. exists 0, "", s. repeat split; solve [lia | exact H].
    + intros (n & p & rest & Hn & -> & Hr & H).
      assert (n = 0) as -> by lia. simpl in Hr. subst p. exact H.
  - rewrite orb_true_iff, IH. split.
    + intros [(p1 & rest1 & -> & H1 & H2) | H].
      * apply IHm in H2. destruct H2 as (n & p2 & rest & Hn & -> & H2 & H3).
        exists (S n), (p1 ++ p2), rest. rewrite append_assoc.
        split; [lia|]. split; [reflexivity|]. split; [|exact H3].
        exists p1, p2. auto.
      * exists 0, "", s. repeat split; solve [lia | exact H].
    + intros ([|n] & p & rest & Hn & -> & Hr & H).
      * right. simpl in Hr. subst p. exact H.
      * left. destruct Hr as (p1 & p2 & -> & H1 & H2).
        exists p1, (p2 ++ rest). rewrite append_assoc. split; [reflexivity|].
        split; [exact H1|]. apply IHm. exists n, p2, rest.
        repeat split; solve [lia | auto].
Qed.

End Matcher.

(** The backtracking matcher finds a match exactly when the pattern can
    consume some prefix after which the continuation accepts. *)
Lemma matchk_den r : forall s k,
  matchk r s k = true <->
  exists p rest, s = p ++ rest /\ den r p rest /\ k rest = true.
Proof.
  induction r as [c|lo hi|r1 IH1 r2 IH2|r1 IH1 r2 IH2|r IH|n r IH
                  |lo hi r IH|r IH|]; intros s k.
  - (* Chr *)
    cbn [matchk den]. split.
    + destruct s as [|d s]; [discriminate|].
      intros H. apply andb_true_iff in H as [H1 H2].
      apply Ascii.eqb_eq in H1 as ->.
      exists (String c ""), s. auto.
    + intros (p & rest & -> & -> & H). rewrite append_cons.
      now rewrite Ascii.eqb_refl.
  - (* Range *)
    cbn [matchk den]. split.
    + destruct s as [|d s]; [discriminate|].
      intros H. apply andb_true_iff in H as [H1 H2].
      exists (String d ""), s. split; [reflexivity|]. split; [eauto | exact H2].
    + intros (p & rest & -> & (d & -> & Hd) & H). rewrite append_cons.
      now rewrite Hd.
  - (* Cat *)
    cbn [matchk den]. rewrite IH1. split.
    + intros (p1 & rest1 & -> & H1 & H2). apply IH2 in H2.
      destruct H2 as (p2 & rest & -> & H2 & H3).
      exists (p1 ++ p2), rest. rewrite append_assoc. split; [reflexivity|].
      split; [|exact H3]. exists p1, p2. auto.
    + intros (p & rest & -> & (p1 & p2 & -> & H1 & H2) & H3).
      exists p1, (p2 ++ rest). rewrite append_assoc. split; [reflexivity|].
      split; [exact H1|]. apply IH2. eauto.
  - (* Alt *)
    cbn [matchk den]. rewrite orb_true_iff, IH1, IH2. split.
    + intros [(p & rest & -> & H1 & H2) | (p & rest & -> & H1 & H2)];
        exists p, rest; auto.
    + intros (p & rest & -> & [H1|H1] & H2); [left | right]; eauto.
  - (* Opt *)
    cbn [matchk den]. rewrite orb_true_iff, IH. split.
    + intros [(p & rest & -> & H1 & H2) | H].
      * exists p, rest. auto.
      * exists "", s. repeat split; auto.
    + intros (p & rest & -> & [H1 | ->] & H2); [left; eauto | right; exact H2].
  - (* Times *)
    cbn [matchk den]. apply exactly_den. exact IH.
  - (* Between *)
    cbn [matchk den].
    rewrite (exactly_den r _ IH lo). split.
    + intros (p1 & rest1 & -> & H1 & H2).
      apply (may_den r k IH) in H2.
      destruct H2 as (n & p2 & rest & Hn & -> & H2 & H3).
      exists (p1 ++ p2), rest. rewrite append_assoc. split; [reflexivity|].
      split; [|exact H3]. exists (lo + n). split; [lia|].
      clear - H1 H2. revert p1 H1. induction lo as [|lo IHlo]; intros p1 H1.
      * simpl in H1. subst p1. exact H2.
      * destruct H1 as (a & b & -> & Ha & Hb).
        exists a, (b ++ p2). rewrite !append_assoc. split; [reflexivity|].
        split; [exact Ha|]. apply IHlo. exact Hb.
    + intros (p & rest & -> & (n & Hn & Hr) & H3).
      assert (Hsplit : exists p1 p2, p = p1 ++ p2
                /\ rep (den r) lo p1 (p2 ++ rest)
                /\ rep (den r) (n - lo) p2 rest).
      { clear - Hn Hr. destruct Hn as [Hn _]. revert n p Hn Hr.
        induction lo as [|lo IHlo]; intros n p Hn Hr.
        - exists "", p. rewrite Nat.sub_0_r. repeat split; auto.
        - destruct n as [|n]; [lia|].
          destruct Hr as (a & b & -> & Ha & Hb).
          destruct (IHlo n b ltac:(lia) Hb) as (p1 & p2 & -> & H1 & H2).
          exists (a ++ p1), p2. rewrite append_assoc. split; [reflexivity|].
          split; [|exact H2]. exists a, p1. rewrite append_assoc in Ha. auto. }
      destruct Hsplit as (p1 & p2 & -> & H1 & H2).
      exists p1, (p2 ++ rest). rewrite append_assoc. split; [reflexivity|].
      split; [exact H1|]. apply (may_den r k IH).
      exists (n - lo), p2, rest. repeat split; solve [lia | auto].
  - (* LookAhead *)
    cbn [matchk den]. rewrite andb_true_iff, IH. split.
    + intros [(q & rest' & -> & H1 & _) H2].
      exists "", (q ++ rest'). repeat split; eauto.
    + intros (p & rest & -> & (-> & q & rest' & Hq & H1) & H2).
      split; [|exact H2]. exists q, rest'. auto.
  - (* Dollar *)
    cbn [matchk den]. rewrite andb_true_iff. split.
    + intros [H1 H2]. exists "", s. repeat split; auto.
    + intros (p & rest & -> & (-> & H1) & H2). auto.
Qed.

(** ** The octets and the tail *)

Lemma in_range_cases hi d :
  In hi ["1"; "4"; "5"; "9"]%char ->
  in_range "0" hi d = true -> In d (digits_upto hi).
Proof.
  intros Hhi H.
  destruct Hhi as [<-|[<-|[<-|[<-|[]]]]];
    destruct d as [[] [] [] [] [] [] [] []];
    first [discriminate H | vm_compute; tauto].
Qed.

(** Enumerate the digits that the recorded range tests allow. *)
Ltac enum_digits :=
  repeat match goal with
  | H : in_range "0" ?hi ?d = true |- _ =>
      apply (in_range_cases hi d ltac:(vm_compute; tauto)) in H;
      vm_compute in H;
      repeat (destruct H as [H|H]; [subst d|]); try contradiction H
  | H : Strict.is_digit ?d = true |- _ => unfold Strict.is_digit in H
  end.

Lemma den_octet o rest : den octet_re o rest <-> octet_shape o.
Proof.
  unfold octet_re, digit, octet_shape. cbn [den]. split.
  - intros [H|[H|H]].
    + destruct H as (? & ? & -> & -> & ? & ? & -> & -> & d & -> & Hd).
      left. eauto.
    + destruct H as (? & ? & -> & -> & ? & ? & -> & (d1 & -> & H1) & d2 & -> & H2).
      right; left. eauto.
    + destruct H as (p0 & ? & -> & H0 & p1 & ? & -> & H1 & d2 & -> & H2).
      destruct H0 as [(d0 & -> & H0) | ->]; destruct H1 as [(d1 & -> & H1) | ->].
      * right; right; left. eauto 8.
      * right; right; right; left. exists d0, d2. repeat split; auto.
        revert H0. clear. destruct d0 as [[] [] [] [] [] [] [] []]; vm_compute; congruence.
      * right; right; right; left. eauto.
      * right; right; right; right. eauto.
  - intros [H|[H|[H|[H|H]]]].
    + destruct H as (d & -> & Hd). left.
      exists "2", (String "5" (String d "")). repeat split.
      exists "5", (String d ""). repeat split. eauto.
    + destruct H as (d1 & d2 & -> & H1 & H2). right; left.
      exists "2", (String d1 (String d2 "")). repeat split.
      exists (String d1 ""), (String d2 ""). repeat split; eauto.
    + destruct H as (d0 & d1 & d2 & -> & H0 & H1 & H2). right; right.
      exists (String d0 ""), (String d1 (String d2 "")). repeat split; [eauto|].
      exists (String d1 ""), (String d2 ""). repeat split; eauto.
    + destruct H as (d1 & d2 & -> & H1 & H2). right; right.
      exists "", (String d1 (String d2 "")). repeat split; [auto|].
      exists (String d1 ""), (String d2 ""). repeat split; eauto.
    + destruct H as (d & -> & H). right; right.
      exists "", (String d ""). repeat split; [auto|].
      exists "", (String d ""). repeat split; eauto.
Qed.

Lemma octet_shape_is_octet o : octet_shape o <-> Strict.is_octet o = true.
Proof.
  split.
  - intros [H|[H|[H|[H|H]]]].
    + destruct H as (d & -> & Hd). enum_digits; reflexivity.
    + destruct H as (d1 & d2 & -> & H1 & H2). enum_digits; reflexivity.
    + destruct H as (d0 & d1 & d2 & -> & H0 & H1 & H2). enum_digits; reflexivity.
    + destruct H as (d1 & d2 & -> & H1 & H2). enum_digits; reflexivity.
    + destruct H as (d & -> & H). enum_digits; reflexivity.
  - intros H. unfold Strict.is_octet in H.
    destruct o as [|c1 [|c2 [|c3 [|c4 o]]]].
    + discriminate H.
    + cbn [PyStr.truthy Strict.all_digits andb] in H.
      apply andb_true_iff in H as [H _]. apply andb_true_iff in H as [H _].
      rewrite andb_true_r in H.
      do 4 right. eauto.
    + cbn [PyStr.truthy Strict.all_digits andb] in H.
      apply andb_true_iff in H as [H _]. apply andb_true_iff in H as [H _].
      rewrite andb_true_r in H. apply andb_true_iff in H as [H1 H2].
      do 3 right; left. eauto.
    + cbn [PyStr.truthy Strict.all_digits andb] in H.
      apply andb_true_iff in H as [H Hv]. apply andb_true_iff in H as [H _].
      rewrite andb_true_r in H. apply andb_true_iff in H as [H1 H].
      apply andb_true_iff in H as [H2 H3].
      enum_digits; vm_compute in Hv; try discriminate Hv; clear Hv;
        first [ left; eexists; split; [reflexivity | reflexivity]
              | right; left; do 2 eexists; repeat split; reflexivity
              | right; right; left; do 3 eexists; repeat split; reflexivity ].
    + exfalso. cbn [String.length Nat.leb] in H.
      rewrite andb_false_r in H. discriminate H.
Qed.

Lemma at_dollar_spec rest :
  at_dollar rest = true <-> rest = EmptyString \/ rest = newline.
Proof.
  unfold newline. destruct rest as [|c [|c' rest]]; cbn [at_dollar].
  - split; auto.
  - rewrite Ascii.eqb_eq. split.
    + intros ->. auto.
    + intros [H|H]; [discriminate H | now injection H].
  - split; [discriminate | intros [H|H]; discriminate H].
Qed.

Lemma den_tail p rest :
  den tail_re p rest <-> p = EmptyString /\ host_tail rest.
Proof.
  unfold tail_re, digit, host_tail. cbn [den]. split.
  - intros (-> & q & rest' & -> & [[-> H] | H]); split; try reflexivity.
    + apply at_dollar_spec in H. tauto.
    + destruct H as (? & p2 & -> & -> & n & Hn & Hr).
      destruct n as [|[|n]]; [lia | lia |].
      destruct Hr as (? & ? & -> & (d1 & -> & H1) & ? & ? & -> & (d2 & -> & H2) & _).
      right; right. exists d1, d2. eexists. split; [reflexivity|]. auto.
  - intros (-> & H). split; [reflexivity|].
    destruct H as [-> | [-> | (d1 & d2 & more & -> & H1 & H2)]].
    + exists "", "". split; [reflexivity|]. left. auto.
    + exists "", newline. split; [reflexivity|]. left. auto.
    + exists (String ":" (String d1 (String d2 ""))), more.
      split; [reflexivity|]. right.
      exists ":", (String d1 (String d2 "")). repeat split.
      exists 2. split; [lia|].
      exists (String d1 ""), (String d2 ""). repeat split; [eauto|].
      exists (String d2 ""), "". repeat split. eauto.
Qed.

Lemma re_match_ipv4_shape netloc :
  re_match ipv4_re netloc = true <-> accepted_host netloc.
Proof.
  unfold re_match. rewrite matchk_den.
  change ipv4_re with
    (Cat octet_re (Cat (Times 3 (Cat (Chr ".") octet_re)) tail_re)).
  unfold accepted_host. cbn [den rep]. split.
  - intros (p & rest & -> & H & _).
    destruct H as (a & ? & -> & Ha & ? & ? & -> & H3 & Ht).
    apply den_tail in Ht as [-> Ht].
    destruct H3 as (? & ? & -> & (? & b & -> & -> & Hb) & H3).
    destruct H3 as (? & ? & -> & (? & c & -> & -> & Hc) & H3).
    destruct H3 as (? & ? & -> & (? & d & -> & -> & Hd) & ->).
    apply den_octet, octet_shape_is_octet in Ha, Hb, Hc, Hd.
    exists a, b, c, d, rest.
    rewrite ?append_assoc, ?append_nil_r. auto 10.
  - intros (a & b & c & d & rest & -> & Ha & Hb & Hc & Hd & Ht).
    apply octet_shape_is_octet in Ha, Hb, Hc, Hd.
    exists (a ++ "." ++ b ++ "." ++ c ++ "." ++ d), rest.
    rewrite ?append_assoc. split; [reflexivity|]. split; [|reflexivity].
    exists a, ("." ++ b ++ "." ++ c ++ "." ++ d).
    split; [reflexivity|]. split; [now apply den_octet|].
    exists ("." ++ b ++ "." ++ c ++ "." ++ d), "".
    rewrite append_nil_r. split; [reflexivity|].
    split; [|apply den_tail; auto].
    exists ("." ++ b), ("." ++ c ++ "." ++ d).
    rewrite ?append_assoc. split; [reflexivity|].
    split; [exists ".", b; repeat split; now apply den_octet|].
    exists ("." ++ c), ("." ++ d).
    rewrite ?append_assoc. split; [reflexivity|].
    split; [exists ".", c; repeat split; now apply den_octet|].
    exists ("." ++ d), "".
    rewrite ?append_nil_r. split; [reflexivity|].
    split; [exists ".", d; repeat split; now apply den_octet | reflexivity].
Qed.


(** ** A well-formed quad followed by anything *)

Lemma split_not_nil sep s : Strict.split sep s <> [].
Proof.
  destruct s as [|c s]; cbn [Strict.split]; [discriminate|].
  destruct (Ascii.eqb c sep); [discriminate|].
  destruct (Strict.split sep s); discriminate.
Qed.

Lemma join_split sep s : join sep (Strict.split sep s) = s.
Proof.
  induction s as [|c s IH]; [reflexivity|].
  cbn [Strict.split]. destruct (Ascii.eqb c sep) eqn:E.
  - apply Ascii.eqb_eq in E as ->.
    pose proof (split_not_nil sep s) as Hne.
    destruct (Strict.split sep s) as [|x l]; [contradiction|].
    cbn [join]. cbn [join] in IH. now rewrite IH.
  - destruct (Strict.split sep s) as [|x [|y l]].
    + now rewrite <- IH.
    + cbn [join] in *. now rewrite IH.
    + cbn [join] in *. rewrite append_cons. now rewrite IH.
Qed.

Lemma is_quad_shape host :
  Strict.is_quad host = true ->
  exists a b c d,
    host = a ++ "." ++ b ++ "." ++ c ++ "." ++ d
    /\ Strict.is_octet a = true /\ Strict.is_octet b = true
    /\ Strict.is_octet c = true /\ Strict.is_octet d = true.
Proof.
  unfold Strict.is_quad. intros H.
  pose proof (join_split "." host) as Hj.
  destruct (Strict.split "." host) as [|a [|b [|c [|d [|e l]]]]];
    try discriminate H.
  do 3 (apply andb_true_iff in H as [H ?]).
  exists a, b, c, d. rewrite <- Hj. split; [reflexivity|]. auto.
Qed.

Lemma is_octet_digits o : Strict.is_octet o = true -> Strict.all_digits o = true.
Proof.
  unfold Strict.is_octet. intros H.
  repeat (apply andb_true_iff in H as [H ?]). assumption.
Qed.

(** Two blocks of digits that end at a non-digit end at the same place. *)
Lemma digit_block_unique x : forall y u v,
  Strict.all_digits x = true -> Strict.all_digits y = true ->
  no_leading_digit u -> no_leading_digit v ->
  x ++ u = y ++ v -> x = y /\ u = v.
Proof.
  induction x as [|c x IH]; intros y u v Hx Hy Hu Hv E.
  - destruct y as [|d y]; [auto|]. exfalso.
    change ("" ++ u) with u in E. subst u. rewrite append_cons in Hu.
    cbn [no_leading_digit Strict.all_digits] in *.
    apply andb_true_iff in Hy as [Hy _]. congruence.
  - destruct y as [|d y].
    + exfalso. change ("" ++ v) with v in E. subst v. rewrite append_cons in Hv.
      cbn [no_leading_digit Strict.all_digits] in *.
      apply andb_true_iff in Hx as [Hx _]. congruence.
    + rewrite !append_cons in E. injection E as -> E.
      cbn [Strict.all_digits] in *.
      apply andb_true_iff in Hx as [_ Hx]. apply andb_true_iff in Hy as [_ Hy].
      destruct (IH _ _ _ Hx Hy Hu Hv E) as [-> ->]. auto.
Qed.

Lemma host_tail_no_digit t : host_tail t -> no_leading_digit t.
Proof.
  intros [-> | [-> | (d1 & d2 & more & -> & _)]]; [exact I | reflexivity..].
Qed.


(** * Further properties of the module *)

Ltac trace_tail :=
  first [ exists []; reflexivity
        | eexists [_]; reflexivity
        | eexists [_; _]; reflexivity
        | eexists [_; _; _]; reflexivity ].

Section More.

Context {FileShare : Type}.
Implicit Types (ext : External FileShare) (st : St FileShare).
Implicit Types (module : Params) (i : iDRAC).

(** X1. A run calls the update manager at most once, and that call is
    the last thing it does outside the module: nothing is retried and
    nothing is called after the answer. *)
Theorem at_most_one_update_call ext module i res st' :
  update_fw_from_repo ext module (enter i) = (res, st') ->
  length (List.filter is_update_call (trace st')) <= 1
  /\ forall flag c,
       In (ev_update_mgr flag c) (trace st') ->
       exists before, trace st' = (before ++ [ev_update_mgr flag c])%list.
Proof.
  revert res st'. by_wp.
  all: split; [cbn; lia | intros flag c Hin; in_trace Hin; trace_tail].
Qed.

(** What every run ends in: a result with exactly one flag set, or one of
    the two validation exits with nothing called. *)
Lemma run_flags ext module i :
  forall res s', update_fw_from_repo ext module (enter i) = (res, s') ->
  match res with
  | Ok (o, e) =>
      xorb (changed o) (failed o) = true
      /\ (e = true ->
          failed o = true /\ changed o = false
          /\ exists text, msg o = VAtom (AStr ("Error: " ++ text)))
  | Raise r =>
      (r = catalog_name_error (catalog_file_name module)
       \/ r = missing_mount_point_error)
      /\ trace s' = []
  end.
Proof.
  by_wp.
  all: try (split; [reflexivity | intros He; try discriminate He; eauto]).
  all: split; [auto | reflexivity].
Qed.

(** X2. Every result that [update_fw_from_repo] returns has exactly one
    of [changed] and [failed] set; with [err] set it is failed, not
    changed, and its message is ["Error: "] and a text. *)
Theorem outcome_flags_exclusive ext module i o e st' :
  update_fw_from_repo ext module (enter i) = (Ok (o, e), st') ->
  xorb (changed o) (failed o) = true
  /\ (e = true ->
      failed o = true /\ changed o = false
      /\ exists text, msg o = VAtom (AStr ("Error: " ++ text))).
Proof. intros Hrun. exact (run_flags _ _ _ _ _ Hrun). Qed.

(** X3. A returned result is [changed] exactly when the update manager
    was called and answered with ["Status"] equal to ["Success"]. *)
Theorem changed_iff_success ext module i o e st' :
  update_fw_from_repo ext module (enter i) = (Ok (o, e), st') ->
  (changed o = true <->
   exists flag c r,
     In (ev_update_mgr flag c) (trace st')
     /\ update_mgr ext flag c = inr r
     /\ status_field r = Some (AStr "Success")).
Proof.
  intros Hrun. split.
  - enough (G : forall res s',
               update_fw_from_repo ext module (enter i) = (res, s') ->
               forall o e, res = Ok (o, e) -> changed o = true ->
               exists flag c r,
                 In (ev_update_mgr flag c) (trace s')
                 /\ update_mgr ext flag c = inr r
                 /\ status_field r = Some (AStr "Success"))
      by (eapply G; eauto).
    clear. by_wp.
    all: intros o e Hres; try discriminate Hres.
    all: injection Hres as <- <-; wp_simpl; intros Hc; try discriminate Hc.
    all: facts; subst.
    all: do 3 eexists; split; [|split; [eassumption | cbn [status_field]; eassumption]].
    all: cbn [In]; auto.
  - intros (flag & c & r & Hin & Hr & Hs).
    pose proof (run_status _ _ _ _ _ _ _ _ Hrun _ _ eq_refl Hin Hr) as G.
    rewrite Hs in G. cbn [eq_str] in G. rewrite String.eqb_refl in G. tauto.
Qed.

(** X4. Whatever call reaches the update manager carries the caller's
    options unchanged: apply_update, reboot and job_wait in both
    branches; on the URL branch the credentials and catalog name, with
    address and share type taken from the parsed locator; on the
    network-share branch a catalog path built from the raw locator, the
    credentials and the catalog name, in that order. *)
Theorem request_carries_the_options ext module i res st' flag c :
  update_fw_from_repo ext module (enter i) = (res, st') ->
  In (ev_update_mgr flag c) (trace st') ->
  match c with
  | update_from_repo_url ip ty sn su sp cf au rb jw =>
      su = share_user module /\ sp = share_pwd module
      /\ cf = catalog_file_name module
      /\ au = apply_update module /\ rb = reboot module
      /\ jw = job_wait module
      /\ exists p, urlparse ext (share_name module) = inr p
                   /\ ip = netloc p /\ ty = scheme p
  | update_from_repo cp au rb jw =>
      au = apply_update module /\ rb = reboot module
      /\ jw = job_wait module
      /\ exists sh sh',
           FileOnShare ext (share_name module) true = inr sh
           /\ addcreds ext sh
                (mkUserCredentials (share_user module) (share_pwd module))
              = inr sh'
           /\ new_file ext sh' (catalog_file_name module) = inr cp
  end.
Proof.
  revert res st'. by_wp.
  all: intros Hin; in_trace Hin.
  all: repeat split; eauto.
Qed.

(** The Redfish flag after a run, as a Boolean equation. *)
Lemma final_flag ext module i :
  forall res st', update_fw_from_repo ext module (enter i) = (res, st') ->
  ServerGeneration (idrac st') = ServerGeneration i
  /\ use_redfish (idrac st')
     = use_redfish i
       && (negb (endswith (lower (catalog_file_name module)) ".xml")
           || negb (existsb (fun gen => contains gen (ServerGeneration i))
                      ["12"; "13"])
              && negb (startswith_any (lower (share_name module))
                         ["http://"; "https://"; "ftp://"])).
Proof.
  by_wp.
  all: split; [reflexivity|].
  all: repeat match goal with
         | H : negb ?x = ?b |- _ =>
             apply (f_equal negb) in H; rewrite negb_involutive in H;
             cbn [negb] in H
         end.
  all: repeat match goal with
         | H : endswith _ _ = _ |- _ => rewrite H; clear H
         | H : startswith_any _ _ = _ |- _ => rewrite H; clear H
         | H : existsb _ _ = _ |- _ => rewrite H; clear H
         end.
  all: destruct (use_redfish i); reflexivity.
Qed.

Lemma legacy_generation_spec generation :
  legacy_generation generation <->
  existsb (fun gen => contains gen generation) ["12"; "13"] = true.
Proof.
  unfold legacy_generation. cbn [existsb].
  rewrite orb_false_r, orb_true_iff. reflexivity.
Qed.

(** X5. A run never changes [ServerGeneration] and never switches
    Redfish on; it leaves Redfish on only if it was on and either the
    catalog check stopped the run or the generation is not 12/13 and the
    locator is no URL.  The flag is not restored after a URL update. *)
Theorem redfish_flag_after_run ext module i res st' :
  update_fw_from_repo ext module (enter i) = (res, st') ->
  ServerGeneration (idrac st') = ServerGeneration i
  /\ (use_redfish (idrac st') = true <->
      use_redfish i = true
      /\ (~ ends_with_ci (catalog_file_name module) ".xml"
          \/ (~ legacy_generation (ServerGeneration i)
              /\ ~ has_url_prefix (share_name module)))).
Proof.
  intros Hrun. destruct (final_flag _ _ _ _ _ Hrun) as [Hg Hf].
  split; [exact Hg|]. rewrite Hf.
  rewrite <- endswith_lower_spec, <- startswith_any_lower_spec,
    legacy_generation_spec.
  destruct (use_redfish i), (endswith _ _), (existsb _ _), (startswith_any _ _);
    cbn [negb andb orb]; intuition congruence.
Qed.


(** *** The "Status" test on the text of a rejected URL *)

Lemma startswith_before_dot n :
  forallb (fun c => negb (Ascii.eqb "." c)) (list_ascii_of_string n) = true ->
  forall t Q, startswith (t ++ String "." Q) n = startswith t n.
Proof.
  induction n as [|p n IH]; intros Hn t Q; [reflexivity|].
  cbn [list_ascii_of_string forallb] in Hn.
  apply andb_true_iff in Hn as [Hp Hn]. apply negb_true_iff in Hp.
  destruct t as [|c t].
  - rewrite append_nil_l. cbn [startswith]. now rewrite Hp.
  - rewrite append_cons. cbn [startswith]. now rewrite IH.
Qed.

Lemma contains_before_dot p n s Q :
  forallb (fun c => negb (Ascii.eqb "." c))
    (list_ascii_of_string (String p n)) = true ->
  contains (String p n) (s ++ String "." Q)
  = contains (String p n) s || contains (String p n) (String "." Q).
Proof.
  intros Hn. induction s as [|c s IH].
  - rewrite append_nil_l. reflexivity.
  - rewrite append_cons. cbn [contains]. rewrite <- append_cons.
    rewrite startswith_before_dot by exact Hn.
    rewrite IH. now rewrite orb_assoc.
Qed.

Lemma contains_skip p n c X :
  Ascii.eqb c p = false ->
  contains (String p n) (String c X) = contains (String p n) X.
Proof. intros H. cbn [contains startswith]. now rewrite H. Qed.

Lemma invalid_text_contains s reason :
  contains "Status" ("Invalid url: " ++ s ++ ". " ++ reason)
  = contains "Status" s || contains "Status" (". " ++ reason).
Proof.
  change ("Invalid url: " ++ s ++ ". " ++ reason)
    with (String "I" (String "n" (String "v" (String "a" (String "l" (String "i" (String "d" (String " " (String "u" (String "r" (String "l" (String ":" (String " " (s ++ String "." (String " " reason))))))))))))))).
  rewrite !contains_skip by reflexivity.
  now rewrite contains_before_dot by reflexivity.
Qed.

(** X6. A URL locator that fails the scheme or host check is reported
    without any call but [urlparse], as failed and not changed.  If the
    locator does not contain the text [Status] the message is the
    "Invalid url" text and [err] stays clear; if it does, the test
    ["Status" in msg['msg']] hits the text, the subscript raises, the
    message becomes an ["Error: "] text and [err] is set. *)
Theorem rejected_url_report ext module i p res st' :
  update_fw_from_repo ext module (enter i) = (res, st') ->
  ends_with_ci (catalog_file_name module) ".xml" ->
  has_url_prefix (share_name module) ->
  urlparse ext (share_name module) = inr p ->
  in_list (scheme p) schemes = false
  \/ netloc p = EmptyString
  \/ re_match ipv4_re (netloc p) = false ->
  trace st' = [ev_urlparse (share_name module)]
  /\ exists o e,
       res = Ok (o, e) /\ changed o = false /\ failed o = true
       /\ (contains "Status" (share_name module) = false ->
           e = false
           /\ exists reason,
                msg o = VAtom (AStr ("Invalid url: " ++ share_name module
                                     ++ ". " ++ reason)))
       /\ (contains "Status" (share_name module) = true ->
           e = true /\ exists text, msg o = VAtom (AStr ("Error: " ++ text))).
Proof.
  intros Hrun Hxml Hurl Hp Hbad.
  apply endswith_lower_spec in Hxml. apply startswith_any_lower_spec in Hurl.
  assert (Hno : PyStr.truthy (netloc p) && re_match ipv4_re (netloc p) = false
                \/ in_list (scheme p) schemes = false).
  { destruct Hbad as [H|[H|H]]; [auto | left; now rewrite H | left].
    rewrite H. apply andb_false_r. }
  clear Hbad. revert res st' Hrun. by_wp.
  all: try (rewrite Hxml in *; discriminate).
  all: try (rewrite Hurl in *; discriminate).
  all: try discriminate Hp.
  all: injection Hp as ->.
  all: repeat match goal with
         | H : negb _ = _ |- _ =>
             apply (f_equal negb) in H; rewrite negb_involutive in H;
             cbn [negb] in H
         end.
  all: try (exfalso; destruct Hno as [Hno|Hno]; congruence).
  all: rewrite invalid_text_contains in *.
  all: match goal with
       | H : orb (contains "Status" _) ?x = _ |- _ =>
           replace x with false in H by (vm_compute; reflexivity);
           rewrite orb_false_r in H
       end.
  all: split; [reflexivity|]; do 2 eexists; split; [reflexivity|].
  all: repeat split; try congruence; eauto.
Qed.


(** *** The exits of [main] *)
(** X7. With the SDK present and the connection made, [main] ends in one
    of four ways: [fail_json] with the catalog or mount-point message and
    nothing called; [fail_json] with a result that is failed, not changed
    and carries an ["Error: "] text; [exit_json] with a result that has
    exactly one flag set; or the exception that [disconnect] raised. *)
Theorem main_exits ext module i r t :
  connect ext module = Ok i ->
  main ext true module = (r, t) ->
  match r with
  | SystemExit (fail_json (KwMsg _)) =>
      (r = catalog_name_error (catalog_file_name module)
       \/ r = missing_mount_point_error)
      /\ t = []
  | SystemExit (fail_json (KwResult o)) =>
      failed o = true /\ changed o = false
      /\ exists text, msg o = VAtom (AStr ("Error: " ++ text))
  | SystemExit (exit_json (KwResult o)) =>
      xorb (changed o) (failed o) = true
  | SystemExit (exit_json (KwMsg _)) => False
  | Exception text => disconnect ext = inl text
  end.
Proof.
  intros Hconn. unfold main. cbn [negb]. rewrite Hconn.
  destruct (update_fw_from_repo ext module (enter i)) as [res st'] eqn:Hrun.
  pose proof (run_flags _ _ _ _ _ Hrun) as G.
  destruct res as [[o e]|r0].
  - destruct (disconnect ext) as [text|[]] eqn:Hd.
    + intros [= <- <-]. reflexivity.
    + destruct G as [Gx Ge]. destruct e; intros [= <- <-]; auto.
  - intros [= <- <-]. destruct G as [[->| ->] Gt]; split; auto.
Qed.

(** *** Which URLs reach the update manager *)


End More.

(** * The further properties on concrete runs *)

Section MoreRuns.

Import Stub Scenario Scenario2.

Lemma url_success_run :
  update_fw_from_repo (success (g14 true)) url (enter (g14 true))
  = (Ok (done "Success", false),
     final false "14G Monolithic" (done "Success") false url_trace).
Proof. vm_compute. reflexivity. Defined.

Lemma url_refused_run :
  update_fw_from_repo (refused (g14 true)) url (enter (g14 true))
  = (Ok (error_outcome "Connection refused", true),
     final false "14G Monolithic" (error_outcome "Connection refused")
       true url_trace).
Proof. vm_compute. reflexivity. Defined.

Lemma cifs_legacy_run :
  update_fw_from_repo (success (g13 true)) (cifs None) (enter (g13 true))
  = (Ok (done "Success", false),
     final false "13G Monolithic" (done "Success") false (cifs_trace false)).
Proof. vm_compute. reflexivity. Defined.

(** X1 on a run: one URL update, one call, last in the trace. *)
Lemma X1_witness :
  update_fw_from_repo (success (g14 true)) url (enter (g14 true))
  = (Ok (done "Success", false),
     final false "14G Monolithic" (done "Success") false url_trace)
  /\ length (List.filter is_update_call url_trace) <= 1.
Proof.
  split; [exact url_success_run|].
  exact (proj1 (at_most_one_update_call _ _ _ _ _ url_success_run)).
Defined.

(** X2 on a run: the update manager raises. *)
Lemma X2_witness :
  update_fw_from_repo (refused (g14 true)) url (enter (g14 true))
  = (Ok (error_outcome "Connection refused", true),
     final false "14G Monolithic" (error_outcome "Connection refused")
       true url_trace)
  /\ xorb (changed (error_outcome "Connection refused"))
          (failed (error_outcome "Connection refused")) = true.
Proof.
  split; [exact url_refused_run|].
  exact (proj1 (outcome_flags_exclusive _ _ _ _ _ _ url_refused_run)).
Defined.

(** X3 on a run: a successful URL update. *)
Lemma X3_witness :
  update_fw_from_repo (success (g14 true)) url (enter (g14 true))
  = (Ok (done "Success", false),
     final false "14G Monolithic" (done "Success") false url_trace)
  /\ (changed (done "Success") = true <->
      exists flag c r,
        In (ev_update_mgr flag c) url_trace
        /\ update_mgr (success (g14 true)) flag c = inr r
        /\ status_field r = Some (AStr "Success")).
Proof.
  split; [exact url_success_run|].
  exact (changed_iff_success _ _ _ _ _ _ url_success_run).
Defined.

(** X4 on a run: a CIFS update on a 13G controller. *)
Lemma X4_witness :
  update_fw_from_repo (success (g13 true)) (cifs None) (enter (g13 true))
  = (Ok (done "Success", false),
     final false "13G Monolithic" (done "Success") false (cifs_trace false))
  /\ In (ev_update_mgr false cifs_request) (cifs_trace false)
  /\ exists sh sh',
       FileOnShare (success (g13 true)) "\\192.168.10.10\share" true = inr sh
       /\ addcreds (success (g13 true)) sh
            (mkUserCredentials (Some "user1") (Some "password")) = inr sh'
       /\ new_file (success (g13 true)) sh' "Catalog.xml" = inr cifs_catalog.
Proof.
  assert (H2 : In (ev_update_mgr false cifs_request)
                 (trace (final false "13G Monolithic" (done "Success")
                           false (cifs_trace false))))
    by (do 3 right; left; reflexivity).
  split; [exact cifs_legacy_run|]. split; [exact H2|].
  exact (proj2 (proj2 (proj2
           (request_carries_the_options _ _ _ _ _ _ _ cifs_legacy_run H2)))).
Defined.

(** X5 on a run: a URL update entered with Redfish on leaves it off. *)
Lemma X5_witness :
  update_fw_from_repo (success (g14 true)) url (enter (g14 true))
  = (Ok (done "Success", false),
     final false "14G Monolithic" (done "Success") false url_trace)
  /\ ServerGeneration
       (idrac (final false "14G Monolithic" (done "Success") false url_trace))
     = "14G Monolithic"
  /\ (use_redfish
        (idrac (final false "14G Monolithic" (done "Success") false url_trace))
      = true <->
      use_redfish (g14 true) = true
      /\ (~ ends_with_ci (catalog_file_name url) ".xml"
          \/ (~ legacy_generation (ServerGeneration (g14 true))
              /\ ~ has_url_prefix (share_name url)))).
Proof.
  split; [exact url_success_run|].
  exact (redfish_flag_after_run _ _ _ _ _ url_success_run).
Defined.

(** X6 on a run: a host name with the text [Status] in it. *)
Lemma X6_witness :
  update_fw_from_repo (success (g14 true)) status_url (enter (g14 true))
  = (Ok (error_outcome "string indices must be integers", true),
     final false "14G Monolithic"
       (error_outcome "string indices must be integers") true
       [ev_urlparse "http://Status.example/repo"])
  /\ contains "Status" "http://Status.example/repo" = true
  /\ trace (final false "14G Monolithic"
              (error_outcome "string indices must be integers") true
              [ev_urlparse "http://Status.example/repo"])
     = [ev_urlparse "http://Status.example/repo"].
Proof.
  assert (H1 : update_fw_from_repo (success (g14 true)) status_url
                 (enter (g14 true))
               = (Ok (error_outcome "string indices must be integers", true),
                  final false "14G Monolithic"
                    (error_outcome "string indices must be integers") true
                    [ev_urlparse "http://Status.example/repo"]))
    by (vm_compute; reflexivity).
  assert (H3 : has_url_prefix (share_name status_url)).
  { exists "http://", "Status.example/repo". split; [reflexivity|].
    left. reflexivity. }
  assert (H4 : urlparse (success (g14 true)) (share_name status_url)
               = inr (mkParseResult "http" "Status.example" "/repo"))
    by reflexivity.
  split; [exact H1|]. split; [reflexivity|].
  exact (proj1 (rejected_url_report _ _ _ _ _ _ H1 catalog_xml_ok H3 H4
                  (or_intror (or_intror eq_refl)))).
Defined.

(** X7 on a run: a job reported as failed. *)
Lemma X7_witness :
  connect (rejected (g14 true)) url = Ok (g14 true)
  /\ main (rejected (g14 true)) true url
     = (SystemExit (exit_json (KwResult (done "Failed"))), url_trace)
  /\ xorb (changed (done "Failed")) (failed (done "Failed")) = true.
Proof.
  assert (H2 : main (rejected (g14 true)) true url
               = (SystemExit (exit_json (KwResult (done "Failed"))), url_trace))
    by (vm_compute; reflexivity).
  split; [reflexivity|]. split; [exact H2|].
  exact (main_exits (rejected (g14 true)) url (g14 true) _ _ eq_refl H2).
Defined.



End MoreRuns.
